(** * CryptAPI NodeJS client: a shallow embedding and its properties

    The development follows the TypeScript sources:
    - [src/fetch.ts]  : [fetchData], [isValidSuccessResp];
    - [src/utils.ts]  : [processServiceInfo];
    - [src/index.ts]  : the class [CryptAPI] with [fetchSupportedCoins],
      [getAddress], [checkLogs], [fetchQRCode], [fetchServiceInfo],
      [fetchEstimatedFees], [fetchConversion] and [makeRequest].

    JavaScript values are modelled by the inductive type [Value]; the
    transport ([fetch] and [Response.json]) is an oracle; asynchronous
    functions are computations in a state-and-exception monad whose state
    holds the instance ([this]) and the list of transport calls made. *)

From Stdlib Require Import Ascii.
From stdpp Require Import base option list strings pretty gmap fin_maps.

Local Open Scope Z_scope.

(** ** Exceptions and outcomes *)

(** A thrown error object: its [name] and its [message]. *)
Record Exn : Type := mkExn { exn_name : string; exn_message : string }.

Definition Error (msg : string) : Exn := mkExn "Error" msg.
Definition TypeError (msg : string) : Exn := mkExn "TypeError" msg.
Definition SyntaxError (msg : string) : Exn := mkExn "SyntaxError" msg.

(** The result of a call: a value returned (a promise fulfilled) or an
    exception thrown (a promise rejected). *)
Inductive Outcome (A : Type) : Type :=
| Returned (a : A)
| Thrown (e : Exn).
Arguments Returned {A} a.
Arguments Thrown {A} e.

(** ** JavaScript values *)

(** A number.  The code asks the type of a number, tests it for truth and
    converts it to a string, nothing else; so a number is given by the
    string [Number.prototype.toString] yields for it (["12345"], ["0.5"],
    ["1e+21"], ["-3"], ["NaN"]), which determines it up to the sign of
    zero. *)
Record Number : Type := Num { number_string : string }.

(** Plain objects and arrays differ in their prototype only. *)
Inductive ObjClass : Type := PlainObject | ArrayObject.

(** The values the code handles: [undefined], the JSON scalars, plain
    objects and arrays.  An object is the list of its own enumerable
    properties in enumeration order (the order of [Object.entries]); for an
    array these are the index properties ["0"], ["1"], ... followed by the
    named properties added to it later ([JSON.parse] produces none). *)
#[warnings="-register-all"]
Inductive Value : Type :=
| VUndefined
| VNull
| VBool (b : bool)
| VNum (n : Number)
| VStr (s : string)
| VObj (cls : ObjClass) (props : list (string * Value)).

Abbreviation Props := (list (string * Value)).

Module Js.

(** ToBoolean of a string: only the empty string is falsy. *)
Definition truthy_string (s : string) : bool := negb (String.eqb s "").

(** ToBoolean of a number: zero (of either sign) and [NaN] are falsy. *)
Definition truthy_number (n : Number) : bool :=
  negb (String.eqb (number_string n) "0")
  && negb (String.eqb (number_string n) "NaN").

(** [v ? .. : ..], [!v], [v && ..]: ToBoolean. *)
Definition truthy (v : Value) : bool :=
  match v with
  | VUndefined | VNull => false
  | VBool b => b
  | VNum n => truthy_number n
  | VStr s => truthy_string s
  | VObj _ _ => true
  end.

(** [typeof v === "object"] *)
Definition typeof_object (v : Value) : bool :=
  match v with
  | VNull | VObj _ _ => true
  | _ => false
  end.

(** [typeof v === "string" || typeof v === "number"] *)
Definition typeof_string_or_number (v : Value) : bool :=
  match v with
  | VNum _ | VStr _ => true
  | _ => false
  end.

(** Property lookup in a property list. *)
Fixpoint lookup_prop (k : string) (ps : Props) : option Value :=
  match ps with
  | [] => None
  | (k', v) :: ps' => if String.eqb k k' then Some v else lookup_prop k ps'
  end.

Definition has_own (k : string) (ps : Props) : bool :=
  match lookup_prop k ps with Some _ => true | None => false end.

(** [Object.entries(v)] for an object or an array. *)
Definition entries (v : Value) : Props :=
  match v with
  | VObj _ props => props
  | _ => []
  end.

(** The array with the given elements, as [JSON.parse] builds it. *)
Definition array (elems : list Value) : Value :=
  VObj ArrayObject (imap (fun i v => (pretty (N.of_nat i), v)) elems).

(** [k in v] for an object or array [v] and a name [k] that the built-in
    prototypes do not define (["ticker"], ["error"], ["status"]): the
    property is found exactly when it is an own property. *)
Definition has_property (k : string) (v : Value) : bool :=
  has_own k (entries v).

(** [v.k] / [v[k]] on an object or array (an absent property reads as
    [undefined]). *)
Definition get (v : Value) (k : string) : Value :=
  match lookup_prop k (entries v) with
  | Some x => x
  | None => VUndefined
  end.

(** [o[k] = x] on a property list, for a name [k] that is neither an array
    index nor ["__proto__"]: an existing property keeps its place, a new one
    goes to the end. *)
Fixpoint set_prop (k : string) (x : Value) (ps : Props) : Props :=
  match ps with
  | [] => [(k, x)]
  | (k', v) :: ps' =>
      if String.eqb k k' then (k', x) :: ps' else (k', v) :: set_prop k x ps'
  end.

(** [s.replace(c, by)] for a one-character pattern: only the first
    occurrence is replaced. *)
Fixpoint replace_first (c : Ascii.ascii) (by_ : string) (s : string) : string :=
  match s with
  | EmptyString => EmptyString
  | String a s' =>
      if Ascii.eqb a c then by_ +:+ s' else String a (replace_first c by_ s')
  end.

(** [s.includes(c)] for a character [c]. *)
Fixpoint contains (c : Ascii.ascii) (s : string) : bool :=
  match s with
  | EmptyString => false
  | String a s' => Ascii.eqb a c || contains c s'
  end.

(** [s.every(p)] over the characters of a string. *)
Fixpoint every (p : Ascii.ascii -> bool) (s : string) : bool :=
  match s with
  | EmptyString => true
  | String a s' => p a && every p s'
  end.

Fixpoint join (sep : string) (l : list string) : string :=
  match l with
  | [] => ""
  | [s] => s
  | s :: l' => s +:+ sep +:+ join sep l'
  end.


(** [ToString(v)] as used by [new Error(v)], [String(v)] and
    [URLSearchParams.append].  A plain object is converted by its
    [toString] method: an own property of that name (never callable here)
    hides the built-in one and the conversion throws a [TypeError].  An
    array joins the conversions of its elements, [null] and [undefined]
    giving the empty string. *)
Fixpoint ToString (v : Value) : option string :=
  match v with
  | VUndefined => Some "undefined"
  | VNull => Some "null"
  | VBool true => Some "true"
  | VBool false => Some "false"
  | VNum n => Some (number_string n)
  | VStr s => Some s
  | VObj PlainObject props =>
      if Js.has_own "toString" props then None else Some "[object Object]"
  | VObj ArrayObject props =>
      if Js.has_own "toString" props then None
      else if Js.has_own "join" props then Some "[object Array]"
      else
        match
          (fix elements (i : nat) (ps : Props) : option (list string) :=
             match ps with
             | [] => Some []
             | (k, e) :: ps' =>
                 if String.eqb k (pretty (N.of_nat i)) then
                   match (match e with
                          | VUndefined | VNull => Some ""
                          | _ => ToString e
                          end), elements (S i) ps' with
                   | Some s, Some ss => Some (s :: ss)
                   | _, _ => None
                   end
                 else Some []
             end) 0%nat props
        with
        | Some ss => Some (Js.join "," ss)
        | None => None
        end
  end.

Definition to_string (v : Value) : Outcome string :=
  match ToString v with
  | Some s => Returned s
  | None => Thrown (TypeError "Cannot convert object to primitive value")
  end.

(** [v[k] = x] in strict mode (module code), for a name [k] that is neither
    an array index nor ["__proto__"]: the object is updated in place; on
    [null], [undefined] or a primitive value the assignment throws. *)
Definition set (v : Value) (k : string) (x : Value) : Outcome Value :=
  match v with
  | VObj cls props => Returned (VObj cls (set_prop k x props))
  | VUndefined | VNull =>
      Thrown (TypeError ("Cannot set properties of " +:+ default "" (ToString v)))
  | _ => Thrown (TypeError ("Cannot create property '" +:+ k +:+ "'"))
  end.

(** [a === b] for a string [b]. *)
Definition strict_eq_string (a : Value) (b : string) : bool :=
  match a with
  | VStr s => String.eqb s b
  | _ => false
  end.

End Js.

(** ** src/utils.ts *)

(** The accumulator [coins] of [processServiceInfo] is a plain object used
    as a map.  [own] holds its own properties; [proto] is its prototype:
    [None] for the initial [Object.prototype], [Some v] after the prototype
    was replaced by [v]. *)
Record Coins : Type := mkCoins {
  own : gmap string Value;
  proto : option Value
}.

Definition empty_coins : Coins := mkCoins ∅ None.

(** Whether a lookup of ["__proto__"] that starts at prototype [p] reaches
    the accessor of [Object.prototype]: an own data property of that name
    on the way, or a [null] prototype, hides it. *)
Definition reaches_proto_accessor (p : option Value) : bool :=
  match p with
  | None => true
  | Some (VObj _ props) => negb (Js.has_own "__proto__" props)
  | Some _ => false
  end.

(** [coins[k] = v].  Every name creates or updates an own property, except
    ["__proto__"] while it is not an own property and resolves to the
    accessor of [Object.prototype]: the setter replaces the prototype when
    [v] is an object or [null] and ignores any other value. *)
Definition assign (coins : Coins) (k : string) (v : Value) : Coins :=
  if String.eqb k "__proto__"
     && negb (bool_decide (is_Some (own coins !! k)))
     && reaches_proto_accessor (proto coins)
  then
    match v with
    | VNull | VObj _ _ => mkCoins (own coins) (Some v)
    | _ => coins
    end
  else mkCoins (<[k := v]> (own coins)) (proto coins).

(** [processServiceInfo(info, coins, prefix)]: the loop over
    [Object.entries(info)]; the mutated accumulator is returned.  The
    function is called on objects and arrays only: at the top level on the
    rest object of [fetchSupportedCoins], in the recursion under the test
    [value && typeof value === "object"]. *)
Fixpoint processServiceInfo (info : Value) (coins : Coins) (prefix : string)
  {struct info} : Coins :=
  match info with
  | VObj _ entries =>
      foldl
        (fun coins '(key, value) =>
           if Js.truthy value && Js.typeof_object value
              && Js.has_property "ticker" value
           then assign coins (prefix +:+ key) (Js.get value "ticker")
           else if Js.truthy value && Js.typeof_object value
           then processServiceInfo value coins (prefix +:+ key +:+ "_")
           else coins)
        coins entries
  | _ => coins
  end.

(** ** The transport and the monad of asynchronous calls *)

(** A [URL] object: origin, path and the entries of [searchParams]. *)
Record URL : Type := mkURL {
  origin : string;
  pathname : string;
  searchParams : list (string * string)
}.

(** The [RequestInit] argument of [fetch]. *)
Record RequestInit : Type := mkInit {
  method : string;
  headers : list (string * string);
  credentials : string
}.

(** One call of the transport. *)
Record Request : Type := mkRequest {
  req_url : URL;
  req_init : RequestInit
}.

(** What [fetch] resolves to: the status code and what [res.json()] gives,
    the parsed body or the parser's exception. *)
Record Response : Type := mkResponse {
  status : N;
  json : Exn + Value
}.

(** [res.ok]: the status is in the range 200-299. *)
Definition ok (res : Response) : bool :=
  ((200 <=? status res) && (status res <=? 299))%N.

(** What a transport call does: the promise of [fetch] is rejected (network
    failure) or resolves to a response. *)
Inductive FetchResult : Type :=
| Rejected (e : Exn)
| Resolved (res : Response).

(** The remote side: the result of a call, given the calls made before. *)
Definition Network : Type := list Request -> Request -> FetchResult.

(** The instance of class [CryptAPI] ([paymentAddress] holds whatever the
    create call returned as [address_in]). *)
Record CryptAPI : Type := mkCryptAPI {
  paymentAddress : Value;
  coin : string;
  ownAddress : string;
  callbackUrl : string;
  parameters : Props;
  caParams : Props
}.

(** The state a call runs in: the instance and the transport calls made so
    far, oldest first. *)
Record Heap : Type := mkHeap {
  this : CryptAPI;
  calls : list Request
}.

Definition M (A : Type) : Type := Heap -> Outcome A * Heap.

Definition ret {A} (a : A) : M A := fun h => (Returned a, h).

Definition throw {A} (e : Exn) : M A := fun h => (Thrown e, h).

Definition lift {A} (o : Outcome A) : M A := fun h => (o, h).

Definition bind {A B} (m : M A) (f : A -> M B) : M B :=
  fun h =>
    match m h with
    | (Returned a, h') => f a h'
    | (Thrown e, h') => (Thrown e, h')
    end.

Definition try_catch {A} (m : M A) (handler : Exn -> M A) : M A :=
  fun h =>
    match m h with
    | (Returned a, h') => (Returned a, h')
    | (Thrown e, h') => handler e h'
    end.

Notation "'let*' x ':=' m 'in' k" := (bind m (fun x => k))
  (at level 10, x name, m at level 100, k at level 200).

(** The instance with [paymentAddress] replaced by [v]. *)
Definition with_paymentAddress (v : Value) (t : CryptAPI) : CryptAPI :=
  mkCryptAPI v (coin t) (ownAddress t) (callbackUrl t)
    (parameters t) (caParams t).

(** [this.paymentAddress = v] *)
Definition set_paymentAddress (v : Value) : M unit :=
  fun h => (Returned tt, mkHeap (with_paymentAddress v (this h)) (calls h)).

(** The heap after one more transport call. *)
Definition record_call (h : Heap) (req : Request) : Heap :=
  mkHeap (this h) (calls h ++ [req]).

Definition get_this : M CryptAPI := fun h => (Returned (this h), h).

(** ** src/fetch.ts *)

Section Fetch.

Variable net : Network.

(** [await fetch(url, fetchParams)]: the call is recorded, then the remote
    side answers. *)
Definition fetch (url : URL) (fetchParams : RequestInit) : M Response :=
  fun h =>
    let req := mkRequest url fetchParams in
    let h' := record_call h req in
    match net (calls h) req with
    | Rejected e => (Thrown e, h')
    | Resolved res => (Returned res, h')
    end.

(** [await res.json()] *)
Definition res_json (res : Response) : M Value :=
  match json res with
  | inl e => throw e
  | inr v => ret v
  end.

(** [new Error(v)]: the message is [ToString(v)], absent for [undefined]. *)
Definition new_Error (v : Value) : Outcome Exn :=
  match v with
  | VUndefined => Returned (Error "")
  | _ => match Js.to_string v with
         | Returned s => Returned (Error s)
         | Thrown e => Thrown e
         end
  end.

(** [k in v]: throws when [v] is not an object. *)
Definition in_operator (k : string) (v : Value) : Outcome bool :=
  match v with
  | VObj _ _ => Returned (Js.has_property k v)
  | _ => Thrown (TypeError ("Cannot use 'in' operator to search for '" +:+ k +:+ "'"))
  end.

Definition isValidSuccessResp (response : Value) : bool :=
  Js.truthy response
  && Js.typeof_object response
  && Js.has_property "status" response
  && Js.strict_eq_string (Js.get response "status") "success".

(** [fetchData(url, fetchParams)].  The [catch] clause logs to the console
    (not modelled) and throws the error again. *)
Definition fetchData (url : URL) (fetchParams : RequestInit) : M Value :=
  try_catch
    (let* res := fetch url fetchParams in
     let* resp := res_json res in
     if negb (ok res) then
       let* error :=
         (if Js.truthy resp then
            let* has_error := lift (in_operator "error" resp) in
            if has_error then ret (Js.get resp "error")
            else ret (VStr ("HTTP error! Status: " +:+ pretty (status res)))
          else ret (VStr ("HTTP error! Status: " +:+ pretty (status res)))) in
       let* e := lift (new_Error error) in
       throw e
     else
       let* resp := lift (Js.set resp "status" (VStr "success")) in
       if negb (isValidSuccessResp resp) then
         throw (Error "Invalid success response structure")
       else ret resp)
    (fun error => throw error).

End Fetch.

(** ** src/index.ts *)

(** [url.searchParams.append(name, value)] *)
Definition searchParams_append (url : URL) (name value : string) : URL :=
  mkURL (origin url) (pathname url) (searchParams url ++ [(name, value)]).

(** The [pathname] setter of a URL with a special scheme ([https]), after
    the URL Standard: the path is emptied and the value is parsed from the
    path start state. *)
Module UrlPath.

(** ASCII tab and newline are removed from the input before parsing. *)
Definition tab_or_newline (c : Ascii.ascii) : bool :=
  let n := Ascii.N_of_ascii c in
  ((n =? 9) || (n =? 10) || (n =? 13))%N.

Fixpoint remove_tab_newline (s : string) : string :=
  match s with
  | EmptyString => EmptyString
  | String c s' =>
      if tab_or_newline c then remove_tab_newline s'
      else String c (remove_tab_newline s')
  end.

(** ["/"] and, the scheme being special, ["\"] end a segment. *)
Definition separator (c : Ascii.ascii) : bool :=
  let n := Ascii.N_of_ascii c in
  ((n =? 47) || (n =? 92))%N.

(** The path percent-encode set: C0 controls, everything above ["~"],
    space, the double quote, ["#"], ["<"], [">"], ["?"], ["^"], the
    backquote, ["{"] and ["}"]. *)
Definition percent_encoded (c : Ascii.ascii) : bool :=
  let n := Ascii.N_of_ascii c in
  ((n <=? 31) || (127 <=? n)
   || (n =? 32) || (n =? 34) || (n =? 35) || (n =? 60) || (n =? 62)
   || (n =? 63) || (n =? 94) || (n =? 96) || (n =? 123) || (n =? 125))%N.

Definition hex_digit (n : N) : Ascii.ascii :=
  Ascii.ascii_of_N (if (n <? 10)%N then 48 + n else 55 + n)%N.

(** A byte of the percent-encode set becomes ["%"] and two upper-case
    hexadecimal digits. *)
Definition percent_encode (c : Ascii.ascii) : string :=
  if percent_encoded c then
    let n := Ascii.N_of_ascii c in
    String "%" (String (hex_digit (n / 16)) (String (hex_digit (n mod 16)) ""))
  else String c "".

(** Single-dot and double-dot path segments; [%2e] in either case stands
    for the dot. *)
Definition single_dot (buffer : string) : bool :=
  bool_decide (buffer ∈ ["."; "%2e"; "%2E"]).

Definition double_dot (buffer : string) : bool :=
  bool_decide
    (buffer ∈ [".."; ".%2e"; ".%2E"; "%2e."; "%2E."; "%2e%2e"; "%2e%2E";
               "%2E%2e"; "%2E%2E"]).

(** The end of a segment, at a separator or ([at_end]) at the end of the
    input: a double-dot segment removes the last segment of the path, a
    single-dot segment adds nothing, and both leave an empty last segment
    at the end of the input; any other segment is added. *)
Definition end_segment (buffer : string) (path : list string) (at_end : bool)
  : list string :=
  if double_dot buffer then
    if at_end then removelast path ++ [""] else removelast path
  else if single_dot buffer then
    if at_end then path ++ [""] else path
  else path ++ [buffer].

(** The path state. *)
Fixpoint path_state (input buffer : string) (path : list string)
  : list string :=
  match input with
  | EmptyString => end_segment buffer path true
  | String c rest =>
      if separator c then path_state rest "" (end_segment buffer path false)
      else path_state rest (buffer +:+ percent_encode c) path
  end.

(** The path serialiser: each segment after a ["/"]. *)
Fixpoint serialize (path : list string) : string :=
  match path with
  | [] => ""
  | segment :: path' => "/" +:+ segment +:+ serialize path'
  end.

(** [url.pathname = value], as the resulting [url.pathname]: the path
    start state skips one leading separator. *)
Definition set_pathname (value : string) : string :=
  let input := remove_tab_newline value in
  let input :=
    match input with
    | String c rest => if separator c then rest else input
    | EmptyString => input
    end in
  serialize (path_state input "" []).

End UrlPath.

(** [url.pathname += suffix]: the setter parses the concatenation. *)
Definition pathname_append (url : URL) (suffix : string) : URL :=
  mkURL (origin url) (UrlPath.set_pathname (pathname url +:+ suffix))
    (searchParams url).

(** [url.toString()] up to the query string: origin and path. *)
Definition target_path (url : URL) : string := origin url +:+ pathname url.

Definition baseURL : string := "https://api.cryptapi.io".

(** [new URL(CryptAPI.baseURL)] *)
Definition new_URL_baseURL : URL := mkURL baseURL "/" [].

(** The [RequestInit] of every request of the client. *)
Definition request_init : RequestInit :=
  mkInit "GET" [("Referer", baseURL)] "include".

Section Client.

Variable net : Network.

(** The platform's URL parser, URL serialiser and [encodeURI], used on the
    callback URL: [URL_parse s] is [None] when [new URL(s)] throws. *)
Variable URL_parse : string -> option URL.
Variable URL_href : URL -> string.
Variable encodeURI : string -> string.

Definition new_URL (s : string) : M URL :=
  match URL_parse s with
  | Some url => ret url
  | None => throw (TypeError "Invalid URL")
  end.

(** [Object.keys(params).forEach(key => url.searchParams.append(key, params[key]))]:
    [append] converts the value to a string, which can throw. *)
Fixpoint append_params (params : Props) (keys : list string) (url : URL)
  : Outcome URL :=
  match keys with
  | [] => Returned url
  | key :: keys' =>
      match Js.to_string (Js.get (VObj PlainObject params) key) with
      | Returned value => append_params params keys' (searchParams_append url key value)
      | Thrown e => Thrown e
      end
  end.

(** [makeRequest(endpoint, coin?, params?)] *)
Definition makeRequest (endpoint : string) (coin : option string)
    (params : option Props) : M Value :=
  let url := new_URL_baseURL in
  let url :=
    pathname_append url
      (match coin with
       | Some c =>
           if Js.truthy_string c
           then Js.replace_first "_"%char "/" c +:+ "/" +:+ endpoint +:+ "/"
           else endpoint +:+ "/"
       | None => endpoint +:+ "/"
       end) in
  let* url :=
    lift (match params with
          | Some ps => append_params ps (ps.*1) url
          | None => Returned url
          end) in
  fetchData net url request_init.

(** [fetchServiceInfo(prices = false)] *)
Definition fetchServiceInfo (prices : bool) : M Value :=
  makeRequest "info" None
    (Some [("prices", VNum (Num (if prices then "1" else "0")))]).

(** [const { fee_tiers, ...resp } = v]: the own enumerable properties of
    [v] other than the named one; destructuring [null] or [undefined]
    throws.  (A string would contribute its characters; [fetchData] returns
    objects only.) *)
Definition rest_without (k : string) (v : Value) : Outcome Value :=
  match v with
  | VUndefined | VNull =>
      Thrown (TypeError "Cannot destructure")
  | _ =>
      Returned
        (VObj PlainObject
           (filter (fun kv => negb (String.eqb kv.1 k)) (Js.entries v)))
  end.

(** [fetchSupportedCoins()]: [None] is the [null] result. *)
Definition fetchSupportedCoins : M (option Coins) :=
  let* info :=
    try_catch
      (let* r := fetchServiceInfo false in
       let* resp := lift (rest_without "fee_tiers" r) in
       ret (Some resp))
      (fun _ => ret None) in
  match info with
  | None => ret None
  | Some info =>
      let coins := empty_coins in
      let coins := processServiceInfo info coins "" in
      ret (Some coins)
  end.

(** The constructor.  It starts [fetchSupportedCoins] without awaiting it:
    the transport call is made, and the check of the coin in the [then]
    callback can only reject a promise that nothing observes. *)
Definition constructor (coin ownAddress callbackUrl : string)
    (parameters caParams : Props) : M unit :=
  fun h =>
    let h' := (fetchSupportedCoins h).2 in
    (Returned tt,
     mkHeap (mkCryptAPI (VStr "") coin ownAddress callbackUrl parameters caParams)
            (calls h')).

(** The loop
    [for (const [k, v] of Object.entries(this.parameters))
       if (typeof v === "string" || typeof v === "number")
         cbUrl.searchParams.append(k, String(v))]. *)
Fixpoint append_parameters (ps : Props) (cbUrl : URL) : URL :=
  match ps with
  | [] => cbUrl
  | (k, v) :: ps' =>
      append_parameters ps'
        (if Js.typeof_string_or_number v
         then searchParams_append cbUrl k (default "" (Js.ToString v))
         else cbUrl)
  end.

(** [getAddress()] *)
Definition getAddress : M Value :=
  let* t := get_this in
  if negb (Js.truthy_string (coin t)) then throw (Error "Coin not set")
  else if negb (Js.truthy_string (callbackUrl t)) then
    throw (Error "Callback URL not set")
  else if negb (Js.truthy_string (ownAddress t)) then
    throw (Error "Address not set")
  else
    let* cbUrl := new_URL (callbackUrl t) in
    let cbUrl := append_parameters (parameters t) cbUrl in
    let* resp :=
      makeRequest "create" (Some (coin t))
        (Some (Js.set_prop "address" (VStr (ownAddress t))
                 (Js.set_prop "callback" (VStr (encodeURI (URL_href cbUrl)))
                    (caParams t)))) in
    let addressIn := Js.get resp "address_in" in
    let* _ := set_paymentAddress addressIn in
    ret addressIn.

(** [checkLogs()] *)
Definition checkLogs : M Value :=
  let* t := get_this in
  if negb (Js.truthy_string (coin t))
     || negb (Js.truthy_string (callbackUrl t))
  then throw (Error "Coin or callback URL not set")
  else
    let* cbUrl := new_URL (callbackUrl t) in
    let cbUrl := append_parameters (parameters t) cbUrl in
    makeRequest "logs" (Some (coin t))
      (Some [("callback", VStr (encodeURI (URL_href cbUrl)))]).

(** [fetchQRCode(value, size = 512)]: [value] is a number or [null]. *)
Definition fetchQRCode (value : option Number) (size : option Number)
  : M Value :=
  let size := default (Num "512") size in
  let* t := get_this in
  if negb (Js.truthy_string (coin t)) then throw (Error "Coin not set")
  else if negb (Js.truthy_string (ownAddress t)) then
    throw (Error "Address not set")
  else
    makeRequest "qrcode" (Some (coin t))
      (Some [("value", from_option VNum VNull value);
             ("size", VNum size);
             ("address", paymentAddress t)]).

(** [fetchEstimatedFees(coin, addresses = 1, priority = "default")] *)
Definition fetchEstimatedFees (coin : string) (addresses : option Number)
    (priority : option string) : M Value :=
  makeRequest "estimate" (Some coin)
    (Some [("addresses", VNum (default (Num "1") addresses));
           ("priority", VStr (default "default" priority))]).

(** [fetchConversion(coin, value, from)] *)
Definition fetchConversion (coin : string) (value : Number) (from : string)
  : M Value :=
  makeRequest "convert" (Some coin)
    (Some [("value", VNum value); ("from", VStr from)]).

End Client.

(** ** Induction on values *)

Section ValueInduction.

Variable P : Value -> Prop.
Hypothesis P_undefined : P VUndefined.
Hypothesis P_null : P VNull.
Hypothesis P_bool : forall b, P (VBool b).
Hypothesis P_num : forall n, P (VNum n).
Hypothesis P_str : forall s, P (VStr s).
Hypothesis P_obj :
  forall cls props, Forall (fun kv => P kv.2) props -> P (VObj cls props).

Fixpoint Value_induction (v : Value) : P v :=
  match v with
  | VUndefined => P_undefined
  | VNull => P_null
  | VBool b => P_bool b
  | VNum n => P_num n
  | VStr s => P_str s
  | VObj cls props =>
      P_obj cls props
        ((fix all (ps : Props) : Forall (fun kv => P kv.2) ps :=
            match ps with
            | [] => List.Forall_nil _
            | kv :: ps' => @List.Forall_cons _ _ kv ps' (Value_induction kv.2) (all ps')
            end) props)
  end.

End ValueInduction.

(** ** Definitions used in the statements *)

(** The entries the walk discovers, in the order of discovery: for each
    key/value pair in input order, an object with a [ticker] field gives
    the entry [prefix + key -> ticker], an object without one gives the
    entries of its own walk under [prefix + key + "_"], anything else gives
    none. *)
Fixpoint coin_entries (info : Value) (prefix : string) {struct info}
  : list (string * Value) :=
  match info with
  | VObj _ entries =>
      flat_map
        (fun '(key, value) =>
           match value with
           | VObj _ fields =>
               if Js.has_own "ticker" fields
               then [(prefix +:+ key, Js.get value "ticker")]
               else coin_entries value (prefix +:+ key +:+ "_")
           | _ => []
           end)
        entries
  | _ => []
  end.

Definition assign_entry (coins : Coins) (kv : string * Value) : Coins :=
  assign coins kv.1 kv.2.

(** A service-info tree with a base coin, a chain with two tokens, the
    [fee_tiers] array and the status marker. *)
Definition sample_info : Value :=
  VObj PlainObject
    [("btc", VObj PlainObject [("coin", VStr "Bitcoin"); ("ticker", VStr "btc")]);
     ("fee_tiers",
      Js.array [VObj PlainObject [("minimum", VStr "0"); ("fee", VStr "1")]]);
     ("polygon",
      VObj PlainObject
        [("usdt", VObj PlainObject [("ticker", VStr "usdt")]);
         ("matic", VObj PlainObject [("ticker", VStr "matic")])]);
     ("status", VStr "success")].

(** Two coin records whose paths coincide. *)
Definition colliding_info : Value :=
  VObj PlainObject
    [("a_b", VObj PlainObject [("ticker", VStr "X")]);
     ("a", VObj PlainObject [("b", VObj PlainObject [("ticker", VStr "Y")])])].


(** A remote side that answers every call with the given status and JSON
    body. *)
Definition answer (st : N) (body : Value) : Network :=
  fun _ _ => Resolved (mkResponse st (inr body)).

(** The error body of the gateway. *)
Definition error_body : Value :=
  VObj PlainObject [("status", VStr "error"); ("error", VStr "bad coin")].

(** An instance as the tests build it, before any call. *)
Definition sample_instance : CryptAPI :=
  mkCryptAPI (VStr "") "polygon_usdt"
    "0xA6B78B56ee062185E405a1DDDD18cE8fcBC4395d"
    "https://webhook.site/fc6e4031"
    [("order_id", VNum (Num "12345"))]
    [("multi_chain", VNum (Num "1")); ("convert", VNum (Num "1"))].

Definition sample_heap : Heap := mkHeap sample_instance [].

(** A call raises a local error: it throws and makes no transport call. *)
Definition raises_locally {A} (r : Outcome A * Heap) (h : Heap) : Prop :=
  (exists e, r.1 = Thrown e) /\ calls r.2 = calls h.

(** A stand-in for the platform's URL functions, enough to run the instance
    methods on the sample instance: it accepts [https] URLs and keeps them
    whole in [origin]. *)
Definition sample_URL_parse (s : string) : option URL :=
  if String.prefix "https://" s then Some (mkURL s "" []) else None.

Definition sample_URL_href (url : URL) : string :=
  origin url +:+ pathname url +:+
  match searchParams url with
  | [] => ""
  | ps => "?" +:+ Js.join "&" (map (fun kv => kv.1 +:+ "=" +:+ kv.2) ps)
  end.

Definition sample_encodeURI (s : string) : string := s.

(** The answer of the gateway to a create call. *)
Definition create_body : Value :=
  VObj PlainObject
    [("status", VStr "success");
     ("address_in", VStr "0x1234");
     ("address_out", VStr "0xA6B78B56ee062185E405a1DDDD18cE8fcBC4395d")].

(** The URL [makeRequest] builds before the parameters are appended, and
    the URL it passes to [fetchData]. *)
Definition request_target (endpoint : string) (coin : option string) : URL :=
  pathname_append new_URL_baseURL
    (match coin with
     | Some c =>
         if Js.truthy_string c
         then Js.replace_first "_"%char "/" c +:+ "/" +:+ endpoint +:+ "/"
         else endpoint +:+ "/"
     | None => endpoint +:+ "/"
     end).

Definition request_url (endpoint : string) (coin : option string)
    (params : option Props) : Outcome URL :=
  match params with
  | Some ps => append_params ps (ps.*1) (request_target endpoint coin)
  | None => Returned (request_target endpoint coin)
  end.

(** The request [fetchServiceInfo(false)] sends. *)
Definition info_url : URL := mkURL baseURL "/info/" [("prices", "0")].

(** ** Further definitions used in the statements *)

(** The query entry a value of [this.parameters] contributes to the
    callback URL: strings and numbers are appended, anything else is
    skipped. *)
Definition callback_parameter (kv : string * Value) : option (string * string) :=
  if Js.typeof_string_or_number kv.2
  then Some (kv.1, default "" (Js.ToString kv.2))
  else None.

(** The value [params[key]] has a string form. *)
Definition convertible (params : Props) (key : string) : Prop :=
  is_Some (Js.ToString (Js.get (VObj PlainObject params) key)).

(** The query entry [makeRequest] appends for [key]. *)
Definition query_entry (params : Props) (key : string) : string * string :=
  (key, default "" (Js.ToString (Js.get (VObj PlainObject params) key))).

(** A request of the client: a [GET] with the fixed [Referer] and
    credentials, to the fixed host. *)
Definition client_request (req : Request) : Prop :=
  req_init req = request_init /\ origin (req_url req) = baseURL.

(** The heap [h'] comes from [h] by at most one transport call, which is a
    request of the client. *)
Definition at_most_one_call (h h' : Heap) : Prop :=
  calls h' = calls h
  \/ exists req, calls h' = calls h ++ [req] /\ client_request req.

(** The path [makeRequest] builds for a coin and an endpoint. *)
Definition endpoint_path (coin endpoint : string) : string :=
  UrlPath.set_pathname
    ("/" +:+
     (if Js.truthy_string coin
      then Js.replace_first "_"%char "/" coin +:+ "/" +:+ endpoint +:+ "/"
      else endpoint +:+ "/")).

(** The last value written to [k] by a list of entries. *)
Definition last_write (k : string) (E : list (string * Value)) : option Value :=
  last (omap (fun kv => if decide (kv.1 = k) then Some kv.2 else None) E).

(** No object of the tree, the root included, has a [ticker] field. *)
Fixpoint ticker_free (v : Value) : bool :=
  match v with
  | VObj _ props =>
      negb (Js.has_own "ticker" props)
      && forallb (fun kv => ticker_free kv.2) props
  | _ => true
  end.

(** The [fee_tiers] value of the info endpoint. *)
Definition sample_fee_tiers : Value :=
  Js.array
    [VObj PlainObject [("minimum", VStr "0"); ("fee", VStr "1.0")];
     VObj PlainObject [("minimum", VStr "1000"); ("fee", VStr "0.5")]].

(** A value without a string form. *)
Definition opaque_value : Value :=
  VObj PlainObject [("toString", VNum (Num "1"))].

(** A create answer without [address_in]. *)
Definition create_body_without_address : Value :=
  VObj PlainObject [("status", VStr "success"); ("address_out", VStr "0xA6")].

(** The parameters [getAddress] passes to [makeRequest]:
    [{...this.caParams, callback, address: this.ownAddress}]. *)
Definition create_params (t : CryptAPI) (callback : string) : Props :=
  Js.set_prop "address" (VStr (ownAddress t))
    (Js.set_prop "callback" (VStr callback) (caParams t)).

(** The sample instance with gateway options that name the reserved
    parameters. *)
Definition overriding_instance : CryptAPI :=
  mkCryptAPI (VStr "") "btc" "0xA6" "https://webhook.site/fc6e4031" []
    [("address", VStr "0xEVIL"); ("multi_chain", VNum (Num "1"));
     ("callback", VStr "https://evil.example")].

(** The callback parameter of the create and logs requests:
    [encodeURI(cbUrl.toString())] after the loop over [this.parameters]. *)
Definition encoded_callback (URL_href : URL -> string)
    (encodeURI : string -> string) (t : CryptAPI) (cbUrl : URL) : string :=
  encodeURI (URL_href (append_parameters (parameters t) cbUrl)).

(** The create request of an instance, given the callback parameter. *)
Definition create_request (t : CryptAPI) (callback : string) : Request :=
  mkRequest
    (mkURL baseURL (endpoint_path (coin t) "create")
       (map (query_entry (create_params t callback))
          (create_params t callback).*1))
    request_init.

(** An info tree whose [fee_tiers] holds a coin record: stripping the key
    matters. *)
Definition info_with_coin_in_fee_tiers : Value :=
  VObj PlainObject
    [("btc", VObj PlainObject [("ticker", VStr "btc")]);
     ("fee_tiers", Js.array [VObj PlainObject [("ticker", VStr "odd")]])].

(** A coin record with price data, as the info endpoint returns it when
    prices are requested. *)
Definition priced_record : Value :=
  VObj PlainObject
    [("coin", VStr "Bitcoin"); ("ticker", VStr "btc");
     ("prices", VObj PlainObject [("USD", VStr "60000"); ("ticker", VStr "usd")])].

(** An entry with the prefix [p] put before its key. *)
Definition prefixed (p : string) (kv : string * Value) : string * Value :=
  (p +:+ kv.1, kv.2).

(** The own property names of a value are pairwise distinct, as they are in
    every JavaScript object. *)
Definition unique_keys (v : Value) : Prop := NoDup (Js.entries v).*1.

(** The path made of the given segments, each followed by ["/"]. *)
Fixpoint slashed (segments : list string) : string :=
  match segments with
  | [] => ""
  | segment :: segments' => segment +:+ "/" +:+ slashed segments'
  end.

(** A character the path parser takes as it is: neither a separator nor in
    the percent-encode set. *)
Definition plain_char (c : Ascii.ascii) : bool :=
  negb (UrlPath.separator c) && negb (UrlPath.percent_encoded c).

(** A segment the path parser keeps as it is: made of such characters and
    not a dot segment. *)
Definition plain_segment (s : string) : bool :=
  Js.every plain_char s
  && negb (UrlPath.single_dot s) && negb (UrlPath.double_dot s).

(** A create answer whose [address_in] has no string form. *)
Definition create_body_opaque_address : Value :=
  VObj PlainObject [("status", VStr "success"); ("address_in", opaque_value)].

(** * Properties *)

(** ** The Coin Info Flattener *)

Lemma processServiceInfo_entries info :
  forall coins prefix,
    processServiceInfo info coins prefix
    = foldl assign_entry coins (coin_entries info prefix).
Proof.
  induction info as [| |b|n|s|cls props IH] using Value_induction;
    intros coins prefix; try reflexivity.
  simpl. revert coins.
  induction IH as [|[key value] ps Hv _ IHps]; intros coins; [reflexivity|].
  simpl. rewrite foldl_app, <- IHps. f_equal.
  destruct value as [| |b|n|s|c fields]; simpl;
    rewrite ?andb_false_r; try reflexivity.
  unfold Js.has_property; simpl.
  destruct (Js.has_own "ticker" fields); [reflexivity|].
  apply Hv.
Qed.

Lemma assign_plain coins k v :
  k ≠ "__proto__" ->
  assign coins k v = mkCoins (<[k := v]> (own coins)) (proto coins).
Proof.
  intros Hk. unfold assign.
  destruct (String.eqb_spec k "__proto__") as [->|_]; [done|reflexivity].
Qed.

Lemma foldl_assign_own (E : list (string * Value)) :
  forall coins,
    "__proto__" ∉ E.*1 ->
    own (foldl assign_entry coins E)
    = foldl (fun m kv => <[kv.1 := kv.2]> m) (own coins) E
    /\ proto (foldl assign_entry coins E) = proto coins.
Proof.
  induction E as [|[k v] E IH]; intros coins HE; [done|].
  simpl in *. apply not_elem_of_cons in HE as [Hk HE].
  unfold assign_entry at 2 4; simpl.
  rewrite assign_plain by done.
  destruct (IH (mkCoins (<[k := v]> (own coins)) (proto coins)) HE) as [-> ->].
  done.
Qed.

Lemma foldl_insert_notin (E : list (string * Value)) :
  forall (m : gmap string Value) k,
    k ∉ E.*1 ->
    foldl (fun m kv => <[kv.1 := kv.2]> m) m E !! k = m !! k.
Proof.
  induction E as [|[k' v'] E IH]; intros m k Hk; [done|].
  simpl in *. apply not_elem_of_cons in Hk as [Hne Hk].
  rewrite IH by done. by rewrite lookup_insert_ne.
Qed.

Lemma foldl_insert_fresh (E : list (string * Value)) :
  forall (m : gmap string Value),
    NoDup E.*1 ->
    (forall k, k ∈ E.*1 -> m !! k = None) ->
    size (foldl (fun m kv => <[kv.1 := kv.2]> m) m E) = (size m + length E)%nat
    /\ forall k v, (k, v) ∈ E ->
         foldl (fun m kv => <[kv.1 := kv.2]> m) m E !! k = Some v.
Proof.
  induction E as [|[k v] E IH]; intros m Hnd Hfresh; simpl in *.
  - split; [lia|]. intros k v H. by apply elem_of_nil in H.
  - apply NoDup_cons in Hnd as [Hk Hnd].
    destruct (IH (<[k := v]> m) Hnd) as [Hsize Hlook].
    { intros k' Hk'. rewrite lookup_insert_ne; [|by intros ->].
      apply Hfresh. by right. }
    split.
    + rewrite Hsize, map_size_insert_None; [lia|]. apply Hfresh. by left.
    + intros k0 v0 H0. apply elem_of_cons in H0 as [[= -> ->]|H0].
      * rewrite foldl_insert_notin by done. apply lookup_insert_eq.
      * by apply Hlook.
Qed.

Example sample_info_entries :
  coin_entries sample_info ""
  = [("btc", VStr "btc"); ("polygon_usdt", VStr "usdt");
     ("polygon_matic", VStr "matic")].
Proof. reflexivity. Qed.

Example colliding_info_result :
  map_to_list (own (processServiceInfo colliding_info empty_coins ""))
  = [("a_b", VStr "Y")].
Proof. vm_compute. reflexivity. Qed.

(** An assignment to ["__proto__"] creates no entry. *)
Example proto_key_ignored :
  processServiceInfo
    (VObj PlainObject [("__proto__", VObj PlainObject [("ticker", VStr "X")])])
    empty_coins ""
  = empty_coins.
Proof. reflexivity. Qed.

(** C2 (as stated, refuted): the walk does not produce one mapping entry
    per object with a [ticker] field for every input: on [colliding_info]
    two such objects are discovered and the mapping ends with one entry. *)
Lemma processServiceInfo_entry_count_counterexample :
  ~ (forall (info : Value) (prefix : string),
       size (own (processServiceInfo info empty_coins prefix))
       = length (coin_entries info prefix)).
Proof.
  intros H. specialize (H colliding_info "").
  vm_compute in H. discriminate H.
Qed.

(** C2 (amended): [processServiceInfo] handles the key/value pairs of its
    input in input order, depth-first: the walk of an object without
    properties leaves the accumulator as it is; a value that is an object
    with a [ticker] field is assigned to [coins[prefix + key]]; an object
    without one is walked with prefix [prefix + key + "_"], at any depth; a
    scalar, [null] or [undefined] is skipped.  Hence the walk performs the
    assignments of [coin_entries] in order, none of them for a scalar; and
    when the paths of these entries are pairwise distinct, differ from
    ["__proto__"] and are not yet in the accumulator, the accumulator gains
    exactly one entry per discovered object, each path mapped to its
    ticker. *)
Theorem processServiceInfo_flattens
    (cls : ObjClass) (key : string) (value : Value) (rest : Props)
    (info : Value) (coins : Coins) (prefix : string) :
  processServiceInfo (VObj cls []) coins prefix = coins
  /\ (forall c fields,
        value = VObj c fields -> Js.has_own "ticker" fields = true ->
        processServiceInfo (VObj cls ((key, value) :: rest)) coins prefix
        = processServiceInfo (VObj cls rest)
            (assign coins (prefix +:+ key) (Js.get value "ticker")) prefix)
  /\ (forall c fields,
        value = VObj c fields -> Js.has_own "ticker" fields = false ->
        processServiceInfo (VObj cls ((key, value) :: rest)) coins prefix
        = processServiceInfo (VObj cls rest)
            (processServiceInfo value coins (prefix +:+ key +:+ "_")) prefix)
  /\ (Js.truthy value && Js.typeof_object value = false ->
        processServiceInfo (VObj cls ((key, value) :: rest)) coins prefix
        = processServiceInfo (VObj cls rest) coins prefix)
  /\ processServiceInfo info coins prefix
     = foldl assign_entry coins (coin_entries info prefix)
  /\ (NoDup (coin_entries info prefix).*1 ->
      "__proto__" ∉ (coin_entries info prefix).*1 ->
      (forall k, k ∈ (coin_entries info prefix).*1 -> own coins !! k = None) ->
      size (own (processServiceInfo info coins prefix))
      = (size (own coins) + length (coin_entries info prefix))%nat
      /\ (forall k v, (k, v) ∈ coin_entries info prefix ->
            own (processServiceInfo info coins prefix) !! k = Some v)
      /\ (forall k, k ∉ (coin_entries info prefix).*1 ->
            own (processServiceInfo info coins prefix) !! k = own coins !! k)
      /\ proto (processServiceInfo info coins prefix) = proto coins).
Proof.
  split; [reflexivity|].
  split.
  { intros c fields -> Ht. simpl. unfold Js.has_property. simpl. by rewrite Ht. }
  split.
  { intros c fields -> Ht. simpl. unfold Js.has_property. simpl. by rewrite Ht. }
  split.
  { intros Hs. simpl. by rewrite Hs. }
  split; [apply processServiceInfo_entries|].
  intros Hnd Hproto Hfresh.
  rewrite processServiceInfo_entries.
  destruct (foldl_assign_own (coin_entries info prefix) coins Hproto) as [-> ->].
  destruct (foldl_insert_fresh _ (own coins) Hnd Hfresh) as [Hsize Hlook].
  split; [done|]. split; [done|]. split; [|done].
  intros k Hk. by apply foldl_insert_notin.
Qed.

Lemma processServiceInfo_flattens_witness :
  size (own (processServiceInfo sample_info empty_coins "")) = 3%nat
  /\ own (processServiceInfo sample_info empty_coins "") !! "polygon_usdt"
     = Some (VStr "usdt")
  /\ own (processServiceInfo sample_info empty_coins "") !! "fee_tiers" = None.
Proof.
  destruct (processServiceInfo_flattens PlainObject "btc" (VStr "x") []
              sample_info empty_coins "")
    as (_ & _ & _ & _ & _ & H).
  destruct H as (Hsize & Hlook & Hother & _).
  - apply (bool_decide_unpack _). vm_compute. exact I.
  - apply (bool_decide_unpack _). vm_compute. exact I.
  - intros k _. apply lookup_empty.
  - split; [exact Hsize|]. split.
    + apply Hlook. apply list_elem_of_further, list_elem_of_here.
    + rewrite Hother; [apply lookup_empty|].
      apply (bool_decide_unpack _). vm_compute. exact I.
Defined.

(** ** The Response Normalizer *)

Lemma lookup_set_prop_eq k x ps :
  Js.lookup_prop k (Js.set_prop k x ps) = Some x.
Proof.
  induction ps as [|[k' v] ps IH]; simpl.
  - by rewrite String.eqb_refl.
  - destruct (String.eqb k k') eqn:E; simpl; rewrite E; [done|exact IH].
Qed.

Lemma lookup_set_prop_ne k k' x ps :
  k ≠ k' ->
  Js.lookup_prop k' (Js.set_prop k x ps) = Js.lookup_prop k' ps.
Proof.
  intros Hne. induction ps as [|[k0 v] ps IH]; simpl.
  - destruct (String.eqb_spec k' k) as [->|_]; [done|reflexivity].
  - destruct (String.eqb_spec k k0) as [->|_]; simpl.
    + destruct (String.eqb_spec k' k0) as [->|_]; [done|reflexivity].
    + by rewrite IH.
Qed.

Lemma isValidSuccessResp_set_status cls props :
  isValidSuccessResp (VObj cls (Js.set_prop "status" (VStr "success") props))
  = true.
Proof.
  unfold isValidSuccessResp, Js.has_property, Js.has_own, Js.get. simpl.
  by rewrite lookup_set_prop_eq.
Qed.

Ltac run_fetchData :=
  unfold fetchData, try_catch, bind, fetch, res_json, ret, throw, lift.

Section FetchFacts.

Variable net : Network.
Variables (url : URL) (fetchParams : RequestInit) (h : Heap).

(** Every call of [fetchData] makes exactly one transport call and leaves
    the instance alone. *)
Lemma fetchData_heap :
  (fetchData net url fetchParams h).2
  = record_call h (mkRequest url fetchParams).
Proof.
  run_fetchData.
  destruct (net (calls h) (mkRequest url fetchParams)) as [e|[st [e|body]]];
    simpl; try reflexivity.
  destruct (negb (ok _)).
  - destruct (Js.truthy body); simpl.
    + destruct (in_operator "error" body) as [[]|]; simpl; try reflexivity;
        destruct (new_Error _); reflexivity.
    + reflexivity.
  - destruct (Js.set body _ _) as [resp|]; simpl; [|reflexivity].
    destruct (negb (isValidSuccessResp resp)); reflexivity.
Qed.

Lemma fetchData_rejected e :
  net (calls h) (mkRequest url fetchParams) = Rejected e ->
  (fetchData net url fetchParams h).1 = Thrown e.
Proof. intros H. run_fetchData. by rewrite H. Qed.

Lemma fetchData_unparsable res e :
  net (calls h) (mkRequest url fetchParams) = Resolved res ->
  json res = inl e ->
  (fetchData net url fetchParams h).1 = Thrown e.
Proof. intros H J. run_fetchData. rewrite H. simpl. by rewrite J. Qed.

Lemma fetchData_ok_object res cls props :
  net (calls h) (mkRequest url fetchParams) = Resolved res ->
  ok res = true ->
  json res = inr (VObj cls props) ->
  (fetchData net url fetchParams h).1
  = Returned (VObj cls (Js.set_prop "status" (VStr "success") props)).
Proof.
  intros H Hok J. run_fetchData. rewrite H. simpl. rewrite J, Hok. simpl.
  by rewrite isValidSuccessResp_set_status.
Qed.

Lemma fetchData_returned_inv v :
  (fetchData net url fetchParams h).1 = Returned v ->
  exists res cls props,
    net (calls h) (mkRequest url fetchParams) = Resolved res
    /\ ok res = true
    /\ json res = inr (VObj cls props)
    /\ v = VObj cls (Js.set_prop "status" (VStr "success") props).
Proof.
  run_fetchData.
  destruct (net (calls h) (mkRequest url fetchParams)) as [e|res] eqn:H;
    simpl; [discriminate|].
  destruct (json res) as [e|body] eqn:J; simpl; [discriminate|].
  destruct (ok res) eqn:Hok; simpl.
  - destruct body as [| |b|n|s|cls props]; simpl; try discriminate.
    rewrite isValidSuccessResp_set_status. simpl. intros [= <-].
    by exists res, cls, props.
  - destruct (Js.truthy body); simpl; [|discriminate].
    destruct (in_operator "error" body) as [[]|]; simpl; try discriminate;
      destruct (new_Error _); discriminate.
Qed.

End FetchFacts.

Example fetchData_success_body :
  (fetchData
     (answer 200 (VObj PlainObject [("status", VStr "success"); ("address_in", VStr "X")]))
     new_URL_baseURL request_init sample_heap).1
  = Returned (VObj PlainObject [("status", VStr "success"); ("address_in", VStr "X")]).
Proof. reflexivity. Qed.

(** C1 (as stated, refuted): a 2xx response whose body lacks the success
    marker is not turned into the error "Invalid success response
    structure": the body [{"status":"error","error":"bad coin"}] with
    status 200 is returned as a success. *)
Lemma fetchData_invalid_structure_counterexample :
  ~ (forall (net : Network) (url : URL) (fetchParams : RequestInit) (h : Heap)
            (res : Response) (body : Value),
       net (calls h) (mkRequest url fetchParams) = Resolved res ->
       ok res = true ->
       json res = inr body ->
       Js.strict_eq_string (Js.get body "status") "success" = false ->
       (fetchData net url fetchParams h).1
       = Thrown (Error "Invalid success response structure")).
Proof.
  intros H.
  specialize (H (answer 200 error_body) new_URL_baseURL request_init sample_heap
                (mkResponse 200 (inr error_body)) error_body
                eq_refl eq_refl eq_refl eq_refl).
  vm_compute in H. discriminate H.
Qed.

(** C1 (amended): for every 2xx response whose parsed body is an object or
    an array, [fetchData] yields a success, whether or not the body carried
    the success marker, and not the error "Invalid success response
    structure"; and whenever [fetchData] yields a success, the success
    marker is present in the wrapped body. *)
Theorem fetchData_success_marker
    (net : Network) (url : URL) (fetchParams : RequestInit) (h : Heap) :
  (forall res cls props,
     net (calls h) (mkRequest url fetchParams) = Resolved res ->
     ok res = true ->
     json res = inr (VObj cls props) ->
     (exists v, (fetchData net url fetchParams h).1 = Returned v)
     /\ (fetchData net url fetchParams h).1
        ≠ Thrown (Error "Invalid success response structure"))
  /\ (forall v,
        (fetchData net url fetchParams h).1 = Returned v ->
        isValidSuccessResp v = true
        /\ Js.get v "status" = VStr "success").
Proof.
  split.
  - intros res cls props H Hok J.
    rewrite (fetchData_ok_object net url fetchParams h res cls props H Hok J).
    split; [by eexists|discriminate].
  - intros v Hv.
    apply fetchData_returned_inv in Hv as (res & cls & props & _ & _ & _ & ->).
    split; [apply isValidSuccessResp_set_status|].
    unfold Js.get. simpl. by rewrite lookup_set_prop_eq.
Qed.

Lemma fetchData_success_marker_witness :
  (exists v,
     (fetchData (answer 200 error_body) new_URL_baseURL request_init sample_heap).1
     = Returned v)
  /\ isValidSuccessResp
       (VObj PlainObject [("status", VStr "success"); ("error", VStr "bad coin")])
     = true.
Proof.
  destruct (fetchData_success_marker (answer 200 error_body) new_URL_baseURL
              request_init sample_heap) as [H1 H2].
  split.
  - apply (H1 (mkResponse 200 (inr error_body)) PlainObject
             [("status", VStr "error"); ("error", VStr "bad coin")]);
      reflexivity.
  - apply H2. reflexivity.
Defined.

(** C9: for every 2xx response whose body parses to an object, [fetchData]
    assigns ["success"] to the [status] field before validating, and
    returns the body so changed as a success, whatever the field held; the
    other fields are kept, one transport call is recorded, and the error
    "Invalid success response structure" does not arise. *)
Theorem fetchData_overwrites_status
    (net : Network) (url : URL) (fetchParams : RequestInit) (h : Heap)
    (res : Response) (cls : ObjClass) (props : Props) :
  net (calls h) (mkRequest url fetchParams) = Resolved res ->
  ok res = true ->
  json res = inr (VObj cls props) ->
  let resp := VObj cls (Js.set_prop "status" (VStr "success") props) in
  fetchData net url fetchParams h
  = (Returned resp, record_call h (mkRequest url fetchParams))
  /\ Js.get resp "status" = VStr "success"
  /\ (forall k, k ≠ "status" -> Js.get resp k = Js.get (VObj cls props) k)
  /\ (fetchData net url fetchParams h).1
     ≠ Thrown (Error "Invalid success response structure").
Proof.
  intros H Hok J resp.
  pose proof (fetchData_ok_object net url fetchParams h res cls props H Hok J)
    as Hout.
  pose proof (fetchData_heap net url fetchParams h) as Hheap.
  split.
  { destruct (fetchData net url fetchParams h) as [o h']. simpl in *.
    by rewrite Hout, Hheap. }
  split.
  { unfold Js.get, resp. simpl. by rewrite lookup_set_prop_eq. }
  split.
  { intros k Hk. unfold Js.get, resp. simpl.
    rewrite lookup_set_prop_ne; [done|congruence]. }
  rewrite Hout. discriminate.
Qed.

(** The body [{"status":"error","error":"bad coin"}] with status 200 comes
    back as a success with the status overwritten. *)
Lemma fetchData_overwrites_status_witness :
  fetchData (answer 200 error_body) new_URL_baseURL request_init sample_heap
  = (Returned
       (VObj PlainObject [("status", VStr "success"); ("error", VStr "bad coin")]),
     record_call sample_heap (mkRequest new_URL_baseURL request_init)).
Proof.
  apply (fetchData_overwrites_status (answer 200 error_body) new_URL_baseURL
           request_init sample_heap (mkResponse 200 (inr error_body))
           PlainObject [("status", VStr "error"); ("error", VStr "bad coin")]);
    reflexivity.
Defined.

(** A non-2xx response whose body does not parse (an HTML error page):
    the parser's exception is what the caller gets. *)
Example fetchData_unparsable_body :
  (fetchData
     (fun _ _ =>
        Resolved (mkResponse 502 (inl (SyntaxError "Unexpected token '<'"))))
     new_URL_baseURL request_init sample_heap).1
  = Thrown (SyntaxError "Unexpected token '<'").
Proof. reflexivity. Qed.




(** The error field [1e+21] gives the message ["1e+21"], and the field
    [{"toString": 1}] a [TypeError]. *)
Example fetchData_http_error_fields :
  (fetchData
     (answer 500 (VObj PlainObject [("error", VNum (Num "1e+21"))]))
     new_URL_baseURL request_init sample_heap).1
  = Thrown (Error "1e+21")
  /\ (fetchData
        (answer 500 (VObj PlainObject [("error", opaque_value)]))
        new_URL_baseURL request_init sample_heap).1
     = Thrown (TypeError "Cannot convert object to primitive value").
Proof. split; reflexivity. Qed.

(** ** The Request Builder *)

Lemma append_cons (x : ascii) (a b : string) :
  String x a +:+ b = String x (a +:+ b).
Proof. reflexivity. Qed.

Lemma append_assoc (a b c : string) : (a +:+ b) +:+ c = a +:+ b +:+ c.
Proof.
  induction a as [|x a IH]; [reflexivity|].
  rewrite !append_cons. by f_equal.
Qed.

Lemma replace_first_absent c by_ s :
  Js.contains c s = false -> Js.replace_first c by_ s = s.
Proof.
  induction s as [|a s IH]; simpl; [done|].
  destruct (Ascii.eqb a c); simpl; [discriminate|].
  intros H. by rewrite IH.
Qed.

Lemma replace_first_separator c by_ group subtype :
  Js.contains c group = false ->
  Js.replace_first c by_ (group +:+ String c subtype) = group +:+ by_ +:+ subtype.
Proof.
  induction group as [|a g IH].
  - intros _. change (Js.replace_first c by_ (String c subtype)
                      = by_ +:+ subtype).
    simpl. by rewrite Ascii.eqb_refl.
  - rewrite !append_cons. simpl.
    destruct (Ascii.eqb a c); simpl; [discriminate|].
    intros H. by rewrite IH.
Qed.

Lemma append_params_spec params keys :
  forall url url',
    append_params params keys url = Returned url' ->
    origin url' = origin url /\ pathname url' = pathname url.
Proof.
  induction keys as [|key keys IH]; intros url url'; simpl.
  - by intros [= ->].
  - destruct (Js.to_string _) as [value|e]; [|discriminate].
    intros H. apply IH in H as [-> ->]. done.
Qed.

Section RequestFacts.

Variable net : Network.
Variables (endpoint : string) (coin : option string) (params : option Props).
Variable h : Heap.

Lemma makeRequest_unfold :
  makeRequest net endpoint coin params h
  = match request_url endpoint coin params with
    | Returned url => fetchData net url request_init h
    | Thrown e => (Thrown e, h)
    end.
Proof.
  unfold makeRequest, bind, lift.
  fold (request_target endpoint coin). fold (request_url endpoint coin params).
  by destruct (request_url endpoint coin params).
Qed.

Lemma makeRequest_this :
  this (makeRequest net endpoint coin params h).2 = this h.
Proof.
  rewrite makeRequest_unfold.
  destruct (request_url endpoint coin params); [|done].
  by rewrite fetchData_heap.
Qed.

Lemma makeRequest_request req :
  calls (makeRequest net endpoint coin params h).2 = calls h ++ [req] ->
  req_init req = request_init
  /\ origin (req_url req) = baseURL
  /\ pathname (req_url req) = pathname (request_target endpoint coin).
Proof.
  rewrite makeRequest_unfold. unfold request_url.
  destruct params as [ps|].
  - destruct (append_params ps ps.*1 (request_target endpoint coin))
      as [url|e] eqn:E; simpl.
    + rewrite fetchData_heap. simpl. intros H.
      apply app_inv_head in H as [= <-]. simpl.
      apply append_params_spec in E as [-> ->]. done.
    + intros H. apply (f_equal length) in H. rewrite length_app in H.
      simpl in H. lia.
  - rewrite fetchData_heap. simpl. intros H.
    apply app_inv_head in H as [= <-]. done.
Qed.

Lemma makeRequest_returned_inv resp h' :
  makeRequest net endpoint coin params h = (Returned resp, h') ->
  exists url res cls props,
    request_url endpoint coin params = Returned url
    /\ h' = record_call h (mkRequest url request_init)
    /\ net (calls h) (mkRequest url request_init) = Resolved res
    /\ ok res = true
    /\ json res = inr (VObj cls props)
    /\ resp = VObj cls (Js.set_prop "status" (VStr "success") props).
Proof.
  rewrite makeRequest_unfold.
  destruct (request_url endpoint coin params) as [url|e]; [|discriminate].
  intros H.
  pose proof (fetchData_heap net url request_init h) as Hh.
  rewrite H in Hh. simpl in Hh.
  pose proof (fetchData_returned_inv net url request_init h resp) as Hr.
  rewrite H in Hr. destruct (Hr eq_refl) as (res & cls & props & ? & ? & ? & ?).
  by exists url, res, cls, props.
Qed.

End RequestFacts.

(** *** The pathname setter on plain segments *)

Lemma append_nil_r (s : string) : s +:+ "" = s.
Proof. induction s as [|a s IH]; [done|]. rewrite append_cons. by f_equal. Qed.

Lemma plain_char_spec c :
  plain_char c = true ->
  UrlPath.tab_or_newline c = false
  /\ UrlPath.separator c = false
  /\ UrlPath.percent_encode c = String c "".
Proof.
  unfold plain_char, UrlPath.percent_encode.
  intros [Hsep Henc]%andb_true_iff.
  apply negb_true_iff in Hsep, Henc. rewrite Henc. split; [|done].
  revert Henc. unfold UrlPath.percent_encoded, UrlPath.tab_or_newline.
  destruct (N_of_ascii c <=? 31)%N eqn:Hle; simpl; [discriminate|].
  intros _. apply N.leb_gt in Hle.
  repeat (apply orb_false_intro); apply N.eqb_neq; lia.
Qed.

Lemma remove_tab_newline_plain s :
  Js.every plain_char s = true -> UrlPath.remove_tab_newline s = s.
Proof.
  induction s as [|c s IH]; simpl; [done|].
  intros [Hc Hs]%andb_true_iff.
  destruct (plain_char_spec c Hc) as (-> & _ & _). by rewrite IH.
Qed.

Lemma remove_tab_newline_append (a b : string) :
  UrlPath.remove_tab_newline (a +:+ b)
  = UrlPath.remove_tab_newline a +:+ UrlPath.remove_tab_newline b.
Proof.
  induction a as [|c a IH]; [done|].
  rewrite append_cons. simpl.
  destruct (UrlPath.tab_or_newline c); [done|].
  rewrite append_cons. by f_equal.
Qed.

Lemma remove_tab_newline_slashed segments :
  Forall (fun s => plain_segment s = true) segments ->
  UrlPath.remove_tab_newline (slashed segments) = slashed segments.
Proof.
  induction 1 as [|seg segs Hseg _ IH]; [done|].
  simpl. unfold plain_segment in Hseg.
  apply andb_true_iff in Hseg as [[Hplain _]%andb_true_iff _].
  rewrite !remove_tab_newline_append, IH.
  by rewrite remove_tab_newline_plain.
Qed.

Lemma path_state_plain seg :
  Js.every plain_char seg = true ->
  forall rest buffer path,
    UrlPath.path_state (seg +:+ rest) buffer path
    = UrlPath.path_state rest (buffer +:+ seg) path.
Proof.
  induction seg as [|c seg IH]; intros Hplain rest buffer path.
  - by rewrite append_nil_r.
  - simpl in Hplain. apply andb_true_iff in Hplain as [Hc Hplain].
    destruct (plain_char_spec c Hc) as (_ & Hsep & Henc).
    rewrite append_cons. simpl. rewrite Hsep, Henc.
    rewrite IH by done. by rewrite append_assoc.
Qed.

Lemma path_state_slashed segments :
  Forall (fun s => plain_segment s = true) segments ->
  forall path,
    UrlPath.path_state (slashed segments) "" path = path ++ segments ++ [""].
Proof.
  induction 1 as [|seg segs Hseg _ IH]; intros path; [done|].
  simpl. unfold plain_segment in Hseg.
  apply andb_true_iff in Hseg as [[Hplain Hsingle]%andb_true_iff Hdouble].
  apply negb_true_iff in Hsingle, Hdouble.
  rewrite path_state_plain by done.
  change ("" +:+ seg) with seg.
  change ("/" +:+ slashed segs) with (String "/" (slashed segs)).
  simpl. unfold UrlPath.end_segment. rewrite Hsingle, Hdouble.
  rewrite IH. by rewrite <- app_assoc.
Qed.

(** On a path of plain segments the setter is the identity. *)
Lemma set_pathname_slashed segments :
  Forall (fun s => plain_segment s = true) segments ->
  UrlPath.set_pathname ("/" +:+ slashed segments) = "/" +:+ slashed segments.
Proof.
  intros Hplain. unfold UrlPath.set_pathname.
  change ("/" +:+ slashed segments) with (String "/" (slashed segments)).
  simpl. rewrite remove_tab_newline_slashed, path_state_slashed by done.
  simpl. clear Hplain. induction segments as [|seg segs IH]; [done|].
  simpl. change (String "/" (seg +:+ "/" +:+ slashed segs))
    with ("/" +:+ seg +:+ "/" +:+ slashed segs).
  do 2 f_equal. exact IH.
Qed.

(** C4 (as stated, refuted): not every coin without a separator is sent to
    [{baseURL}/{coin}/{endpoint}/]: for the coin [".."] the path setter
    removes the dot segment and the request goes to [{baseURL}/create/]. *)
Lemma makeRequest_target_path_counterexample :
  ~ (forall (net : Network) (endpoint : string) (coin : option string)
            (params : option Props) (h : Heap) (req : Request),
       calls (makeRequest net endpoint coin params h).2 = calls h ++ [req] ->
       (coin = None \/ coin = Some "" ->
        target_path (req_url req) = baseURL +:+ "/" +:+ endpoint +:+ "/")
       /\ (forall group subtype,
             coin = Some (group +:+ "_" +:+ subtype) ->
             Js.contains "_"%char group = false ->
             target_path (req_url req)
             = baseURL +:+ "/" +:+ group +:+ "/" +:+ subtype +:+ "/"
               +:+ endpoint +:+ "/")
       /\ (forall c,
             coin = Some c -> c ≠ "" ->
             Js.contains "_"%char c = false ->
             target_path (req_url req)
             = baseURL +:+ "/" +:+ c +:+ "/" +:+ endpoint +:+ "/")).
Proof.
  intros H.
  destruct (H (answer 200 create_body) "create" (Some "..") None sample_heap
              (mkRequest (mkURL baseURL "/create/" []) request_init) eq_refl)
    as (_ & _ & Hcoin).
  specialize (Hcoin ".." eq_refl).
  assert (Hne : ".." ≠ "") by discriminate.
  specialize (Hcoin Hne eq_refl). vm_compute in Hcoin. discriminate Hcoin.
Qed.

(** C4 (amended): for every request built by [makeRequest] whose endpoint
    and coin parts are plain path segments (no ["/"], no backslash, no
    character the URL parser percent-encodes, and not a dot segment), the
    target is [{baseURL}/{endpoint}/] when no coin is given; it is
    [{baseURL}/{group}/{subtype}/{endpoint}/] when the coin is
    [group_subtype] with the separator ["_"] not in [group]; and it is
    [{baseURL}/{coin}/{endpoint}/] for a coin without a separator. *)
Theorem makeRequest_target_path
    (net : Network) (endpoint : string) (coin : option string)
    (params : option Props) (h : Heap) (req : Request) :
  calls (makeRequest net endpoint coin params h).2 = calls h ++ [req] ->
  plain_segment endpoint = true ->
  (coin = None \/ coin = Some "" ->
   target_path (req_url req) = baseURL +:+ "/" +:+ endpoint +:+ "/")
  /\ (forall group subtype,
        coin = Some (group +:+ "_" +:+ subtype) ->
        Js.contains "_"%char group = false ->
        plain_segment group = true ->
        plain_segment subtype = true ->
        target_path (req_url req)
        = baseURL +:+ "/" +:+ group +:+ "/" +:+ subtype +:+ "/" +:+ endpoint +:+ "/")
  /\ (forall c,
        coin = Some c -> c ≠ "" ->
        Js.contains "_"%char c = false ->
        plain_segment c = true ->
        target_path (req_url req) = baseURL +:+ "/" +:+ c +:+ "/" +:+ endpoint +:+ "/").
Proof.
  intros H He. apply makeRequest_request in H as (_ & Ho & Hp).
  unfold target_path. rewrite Ho, Hp. clear Ho Hp.
  unfold request_target, pathname_append. simpl pathname.
  split; [|split].
  - intros Hcoin.
    assert (Hset : UrlPath.set_pathname ("/" +:+ endpoint +:+ "/")
                   = "/" +:+ endpoint +:+ "/").
    { pose proof (set_pathname_slashed [endpoint]) as Hs. simpl in Hs.
      rewrite append_nil_r in Hs. apply Hs. by repeat constructor. }
    destruct Hcoin as [->| ->]; simpl; by rewrite Hset.
  - intros group subtype -> Hg Hpg Hps.
    assert (Js.truthy_string (group +:+ "_" +:+ subtype) = true) as ->.
    { destruct group; reflexivity. }
    change (group +:+ "_" +:+ subtype) with (group +:+ String "_" subtype).
    rewrite replace_first_separator by done.
    pose proof (set_pathname_slashed [group; subtype; endpoint]) as Hs.
    simpl in Hs. rewrite append_nil_r in Hs.
    rewrite !append_assoc. rewrite Hs; [done|by repeat constructor].
  - intros c -> Hc Hsep Hpc.
    assert (Js.truthy_string c = true) as ->.
    { destruct c; [done|reflexivity]. }
    rewrite replace_first_absent by done.
    pose proof (set_pathname_slashed [c; endpoint]) as Hs.
    simpl in Hs. rewrite append_nil_r in Hs.
    rewrite Hs; [done|by repeat constructor].
Qed.

Lemma makeRequest_target_path_witness :
  target_path
    (mkURL baseURL "/polygon/usdt/create/" [("address", "0x1")])
  = "https://api.cryptapi.io/polygon/usdt/create/"
  /\ target_path (mkURL baseURL "/btc/create/" [("address", "0x1")])
     = "https://api.cryptapi.io/btc/create/"
  /\ target_path (mkURL baseURL "/info/" [("prices", "0")])
     = "https://api.cryptapi.io/info/".
Proof.
  split; [|split].
  - destruct (makeRequest_target_path (answer 200 create_body) "create"
                (Some "polygon_usdt") (Some [("address", VStr "0x1")]) sample_heap
                (mkRequest (mkURL baseURL "/polygon/usdt/create/" [("address", "0x1")])
                   request_init) eq_refl eq_refl) as (_ & H & _).
    apply (H "polygon" "usdt"); reflexivity.
  - destruct (makeRequest_target_path (answer 200 create_body) "create"
                (Some "btc") (Some [("address", VStr "0x1")]) sample_heap
                (mkRequest (mkURL baseURL "/btc/create/" [("address", "0x1")])
                   request_init) eq_refl eq_refl) as (_ & _ & H).
    apply (H "btc"); [reflexivity|discriminate|reflexivity|reflexivity].
  - destruct (makeRequest_target_path (answer 200 sample_info) "info"
                None (Some [("prices", VNum (Num "0"))]) sample_heap
                (mkRequest (mkURL baseURL "/info/" [("prices", "0")])
                   request_init) eq_refl eq_refl) as (H & _).
    apply H. by left.
Defined.

(** ** Fetch-Supported-Coins *)

Lemma lookup_prop_filter_out k (ps : Props) :
  Js.lookup_prop k (filter (fun kv => negb (String.eqb kv.1 k)) ps) = None.
Proof.
  induction ps as [|[k' v] ps IH]; [done|].
  rewrite filter_cons. simpl.
  destruct (String.eqb k' k) eqn:E; simpl; [exact IH|].
  rewrite String.eqb_sym, E. exact IH.
Qed.

(** The request of [fetchServiceInfo(false)]. *)
Lemma fetchServiceInfo_request net h :
  fetchServiceInfo net false h
  = fetchData net info_url request_init h.
Proof. reflexivity. Qed.

Lemma lookup_prop_filter_ne k k0 (ps : Props) :
  k ≠ k0 ->
  Js.lookup_prop k (filter (fun kv => negb (String.eqb kv.1 k0)) ps)
  = Js.lookup_prop k ps.
Proof.
  intros Hk. induction ps as [|[k' x] ps IH]; [done|].
  rewrite filter_cons. simpl.
  destruct (String.eqb_spec k' k0) as [->|Hne]; simpl.
  - destruct (String.eqb_spec k k0); [done|exact IH].
  - by rewrite IH.
Qed.

Lemma foldl_assign_entry_lookup (E : list (string * Value)) coins k :
  k ≠ "__proto__" ->
  own (foldl assign_entry coins E) !! k
  = match last_write k E with
    | Some v => Some v
    | None => own coins !! k
    end.
Proof.
  intros Hk. unfold last_write.
  induction E as [|[k' v] E IH] using rev_ind; [done|].
  rewrite foldl_snoc, omap_app. simpl. unfold assign_entry at 1. simpl.
  destruct (decide (k' = k)) as [->|Hne].
  - rewrite last_snoc. rewrite assign_plain by done. simpl.
    apply lookup_insert_eq.
  - rewrite app_nil_r. unfold assign.
    destruct (_ && _); [by destruct v|].
    simpl. by rewrite lookup_insert_ne.
Qed.

(** C3: [fetchSupportedCoins] never throws.  When the info call fails in
    any way (the transport is rejected, the body does not parse, the status
    is not 2xx) it returns [null].  When the info call succeeds it returns
    the mapping flattened from the rest object of the response, which is
    the response without its top-level [fee_tiers] key: the mapping is the
    empty object after the assignments [path := ticker] of the coin records
    of the rest object, in their order; so it maps every path other than
    ["__proto__"] to the ticker of the last record with that path and has
    no other entry, and it has one entry per record when the paths are
    pairwise distinct and none is ["__proto__"]. *)
Theorem fetchSupportedCoins_never_throws (net : Network) (h : Heap) :
  exists r : option Coins,
    (fetchSupportedCoins net h).1 = Returned r
    /\ (forall e,
          net (calls h) (mkRequest info_url request_init) = Rejected e ->
          r = None)
    /\ (forall res e,
          net (calls h) (mkRequest info_url request_init) = Resolved res ->
          json res = inl e ->
          r = None)
    /\ (forall e, (fetchServiceInfo net false h).1 = Thrown e -> r = None)
    /\ (forall v,
          (fetchServiceInfo net false h).1 = Returned v ->
          exists info coins,
            rest_without "fee_tiers" v = Returned info
            /\ Js.has_property "fee_tiers" info = false
            /\ (forall k, k ≠ "fee_tiers" -> Js.get info k = Js.get v k)
            /\ r = Some coins
            /\ coins = foldl assign_entry empty_coins (coin_entries info "")
            /\ (forall k, k ≠ "__proto__" ->
                  own coins !! k = last_write k (coin_entries info ""))
            /\ (NoDup (coin_entries info "").*1 ->
                "__proto__" ∉ (coin_entries info "").*1 ->
                size (own coins) = length (coin_entries info "")
                /\ forall k ticker,
                     (k, ticker) ∈ coin_entries info "" ->
                     own coins !! k = Some ticker)).
Proof.
  pose proof (fetchData_rejected net info_url request_init h) as Hrej.
  pose proof (fetchData_unparsable net info_url request_init h) as Hunp.
  pose proof (fetchData_returned_inv net info_url request_init h) as Hinv.
  rewrite <- fetchServiceInfo_request in Hrej, Hunp, Hinv.
  unfold fetchSupportedCoins, try_catch, bind, lift, ret.
  destruct (fetchServiceInfo net false h) as [[v|e] h'] eqn:E; simpl in *.
  - destruct (Hinv v eq_refl) as (res & cls & props & _ & _ & _ & ->).
    set (body := Js.set_prop "status" (VStr "success") props).
    set (info := VObj PlainObject
                   (filter (fun kv => negb (String.eqb kv.1 "fee_tiers")) body)).
    exists (Some (processServiceInfo info empty_coins "")).
    split; [reflexivity|].
    split. { intros e H. by specialize (Hrej e H). }
    split. { intros res' e H J. by specialize (Hunp res' e H J). }
    split; [discriminate|].
    intros v [= <-]. exists info, (processServiceInfo info empty_coins "").
    split; [reflexivity|]. split.
    { unfold Js.has_property, Js.has_own. simpl.
      by rewrite lookup_prop_filter_out. }
    split.
    { intros k Hk. unfold Js.get. simpl. by rewrite lookup_prop_filter_ne. }
    split; [reflexivity|].
    rewrite processServiceInfo_entries. split; [reflexivity|]. split.
    { intros k Hk. rewrite foldl_assign_entry_lookup by done.
      simpl. rewrite lookup_empty. by destruct (last_write _ _). }
    intros Hnd Hproto.
    destruct (foldl_assign_own (coin_entries info "") empty_coins Hproto)
      as [-> _].
    destruct (foldl_insert_fresh (coin_entries info "") (own empty_coins) Hnd)
      as [Hsize Hlook].
    { intros k _. apply lookup_empty. }
    split; [|exact Hlook].
    rewrite Hsize. simpl. by rewrite map_size_empty.
  - exists None. split; [reflexivity|]. repeat (split; [done|]). discriminate.
Qed.

(** On the sample tree the result holds the three coins, under their
    flattened names, and nothing for [fee_tiers]; a failed info call gives
    [null]. *)
Lemma fetchSupportedCoins_never_throws_witness :
  (exists coins,
     (fetchSupportedCoins (answer 200 sample_info) sample_heap).1
     = Returned (Some coins)
     /\ own coins !! "btc" = Some (VStr "btc")
     /\ own coins !! "polygon_usdt" = Some (VStr "usdt")
     /\ own coins !! "polygon_matic" = Some (VStr "matic")
     /\ own coins !! "fee_tiers" = None
     /\ size (own coins) = 3%nat)
  /\ (fetchSupportedCoins (answer 500 error_body) sample_heap).1 = Returned None.
Proof.
  split.
  - destruct (fetchSupportedCoins_never_throws (answer 200 sample_info) sample_heap)
      as (r & Hr & _ & _ & _ & H).
    destruct (H sample_info eq_refl)
      as (info & coins & [= <-] & _ & _ & -> & _ & Hlast & Hall).
    exists coins. split; [exact Hr|].
    destruct Hall as [Hsize _].
    { apply (bool_decide_unpack _). vm_compute. exact I. }
    { apply (bool_decide_unpack _). vm_compute. exact I. }
    rewrite !Hlast by discriminate.
    repeat split; try reflexivity. exact Hsize.
  - destruct (fetchSupportedCoins_never_throws (answer 500 error_body) sample_heap)
      as (r & -> & _ & _ & H & _).
    by rewrite (H (Error "bad coin") eq_refl).
Defined.

(** ** The instance methods *)

Lemma truthy_string_false s : Js.truthy_string s = false <-> s = "".
Proof.
  unfold Js.truthy_string.
  destruct (String.eqb_spec s ""); simpl; split; congruence.
Qed.

Lemma truthy_string_true s : Js.truthy_string s = true <-> s ≠ "".
Proof.
  unfold Js.truthy_string.
  destruct (String.eqb_spec s ""); simpl; split; congruence.
Qed.

Ltac run_method :=
  unfold getAddress, checkLogs, fetchQRCode, new_URL, set_paymentAddress,
    get_this, bind, ret, throw, lift.

(** C5: on an instance whose [coin], [ownAddress] or [callbackUrl] is
    empty, [getAddress] throws the matching configuration error
    ("Coin not set", "Address not set" or "Callback URL not set") and the
    heap, hence the list of transport calls, is as before: the transport
    is not invoked.  The coin is checked first, then the callback URL, then
    the address. *)
Theorem getAddress_configuration_error
    (net : Network) (URL_parse : string -> option URL)
    (URL_href : URL -> string) (encodeURI : string -> string) (h : Heap) :
  coin (this h) = "" \/ ownAddress (this h) = "" \/ callbackUrl (this h) = "" ->
  (exists msg,
     getAddress net URL_parse URL_href encodeURI h = (Thrown (Error msg), h)
     /\ (msg = "Coin not set" /\ coin (this h) = ""
         \/ msg = "Address not set" /\ ownAddress (this h) = ""
         \/ msg = "Callback URL not set" /\ callbackUrl (this h) = ""))
  /\ (coin (this h) = "" ->
      getAddress net URL_parse URL_href encodeURI h
      = (Thrown (Error "Coin not set"), h))
  /\ (coin (this h) ≠ "" -> callbackUrl (this h) = "" ->
      getAddress net URL_parse URL_href encodeURI h
      = (Thrown (Error "Callback URL not set"), h))
  /\ (coin (this h) ≠ "" -> callbackUrl (this h) ≠ "" ->
      ownAddress (this h) = "" ->
      getAddress net URL_parse URL_href encodeURI h
      = (Thrown (Error "Address not set"), h)).
Proof.
  intros Hempty.
  assert (H1 : coin (this h) = "" ->
               getAddress net URL_parse URL_href encodeURI h
               = (Thrown (Error "Coin not set"), h)).
  { intros Hc. run_method. by rewrite Hc. }
  assert (H2 : coin (this h) ≠ "" -> callbackUrl (this h) = "" ->
               getAddress net URL_parse URL_href encodeURI h
               = (Thrown (Error "Callback URL not set"), h)).
  { intros Hc Hcb. run_method.
    apply truthy_string_true in Hc. by rewrite Hc, Hcb. }
  assert (H3 : coin (this h) ≠ "" -> callbackUrl (this h) ≠ "" ->
               ownAddress (this h) = "" ->
               getAddress net URL_parse URL_href encodeURI h
               = (Thrown (Error "Address not set"), h)).
  { intros Hc Hcb Ha. run_method.
    apply truthy_string_true in Hc, Hcb. by rewrite Hc, Hcb, Ha. }
  split; [|done].
  destruct (decide (coin (this h) = "")) as [Hc|Hc].
  { exists "Coin not set". split; [by apply H1|by left]. }
  destruct (decide (callbackUrl (this h) = "")) as [Hcb|Hcb].
  { exists "Callback URL not set". split; [by apply H2|by right; right]. }
  destruct Hempty as [?|[Ha|?]]; try done.
  exists "Address not set". split; [by apply H3|by right; left].
Qed.

(** The sample instance with its callback URL removed: no call is made. *)
Lemma getAddress_configuration_error_witness :
  getAddress (answer 200 create_body) sample_URL_parse sample_URL_href
    sample_encodeURI
    (mkHeap (mkCryptAPI (VStr "") "btc" "0xA6" "" [] []) [])
  = (Thrown (Error "Callback URL not set"),
     mkHeap (mkCryptAPI (VStr "") "btc" "0xA6" "" [] []) []).
Proof.
  destruct (getAddress_configuration_error (answer 200 create_body)
              sample_URL_parse sample_URL_href sample_encodeURI
              (mkHeap (mkCryptAPI (VStr "") "btc" "0xA6" "" [] []) [])
              (or_intror (or_intror eq_refl))) as (_ & _ & H & _).
  apply H; [discriminate|reflexivity].
Defined.

(** What a successful [getAddress] did: one create call, answered with a
    2xx object body, whose [address_in] is returned and stored. *)
Lemma getAddress_returned_inv net URL_parse URL_href encodeURI h a h1 :
  getAddress net URL_parse URL_href encodeURI h = (Returned a, h1) ->
  coin (this h) ≠ "" /\ ownAddress (this h) ≠ ""
  /\ exists req res cls props,
       h1 = mkHeap (with_paymentAddress a (this h)) (calls h ++ [req])
       /\ net (calls h) req = Resolved res
       /\ ok res = true
       /\ json res = inr (VObj cls props)
       /\ a = Js.get (VObj cls props) "address_in".
Proof.
  run_method.
  destruct (Js.truthy_string (coin (this h))) eqn:Hc; simpl; [|discriminate].
  destruct (Js.truthy_string (callbackUrl (this h))) eqn:Hcb; simpl; [|discriminate].
  destruct (Js.truthy_string (ownAddress (this h))) eqn:Ha; simpl; [|discriminate].
  destruct (URL_parse (callbackUrl (this h))) as [cbUrl|]; simpl; [|discriminate].
  match goal with
  | |- context [makeRequest net ?e ?c ?p h] =>
      destruct (makeRequest net e c p h) as [[resp|e'] h'] eqn:E
  end; simpl; [|discriminate].
  intros [= <- <-].
  apply makeRequest_returned_inv in E
    as (url & res & cls & props & _ & -> & Hnet & Hok & J & ->).
  split; [by apply truthy_string_true|].
  split; [by apply truthy_string_true|].
  exists (mkRequest url request_init), res, cls, props.
  split; [reflexivity|]. split; [done|]. split; [done|]. split; [done|].
  unfold Js.get. simpl. by rewrite lookup_set_prop_ne.
Qed.

Lemma fetchQRCode_request net value size h s :
  coin (this h) ≠ "" -> ownAddress (this h) ≠ "" ->
  Js.ToString (paymentAddress (this h)) = Some s ->
  fetchQRCode net value size h
  = fetchData net
      (mkURL baseURL (endpoint_path (coin (this h)) "qrcode")
         [("value", from_option number_string "null" value);
          ("size", number_string (default (Num "512") size));
          ("address", s)])
      request_init h.
Proof.
  intros Hc Ha Hs. run_method.
  apply truthy_string_true in Hc, Ha. rewrite Hc, Ha. simpl.
  rewrite makeRequest_unfold.
  unfold request_url, request_target, pathname_append, endpoint_path.
  rewrite Hc. simpl pathname. set (path := UrlPath.set_pathname _).
  unfold append_params, Js.to_string, Js.get. simpl. rewrite Hs.
  by destruct value.
Qed.

Lemma fetchQRCode_unconvertible net value size h :
  coin (this h) ≠ "" -> ownAddress (this h) ≠ "" ->
  Js.ToString (paymentAddress (this h)) = None ->
  fetchQRCode net value size h
  = (Thrown (TypeError "Cannot convert object to primitive value"), h).
Proof.
  intros Hc Ha Hs. run_method.
  apply truthy_string_true in Hc, Ha. rewrite Hc, Ha. simpl.
  rewrite makeRequest_unfold.
  unfold request_url, request_target, pathname_append.
  rewrite Hc. simpl pathname. set (path := UrlPath.set_pathname _).
  unfold append_params, Js.to_string, Js.get. simpl. rewrite Hs.
  by destruct value.
Qed.

(** C7 (as stated, refuted): a successful [getAddress] is not always
    followed by a QR-code request that carries its address.  When the
    create call is answered with an [address_in] that has no string form
    (the object [{"toString": 1}]), [getAddress] returns and stores it, and
    the following [fetchQRCode] throws before any request is sent. *)
Lemma getAddress_then_fetchQRCode_counterexample :
  ~ (forall (net net' : Network) (URL_parse : string -> option URL)
            (URL_href : URL -> string) (encodeURI : string -> string)
            (h h1 : Heap) (a : Value) (value size : option Number),
       getAddress net URL_parse URL_href encodeURI h = (Returned a, h1) ->
       exists req' s,
         calls (fetchQRCode net' value size h1).2 = calls h1 ++ [req']
         /\ ("address", s) ∈ searchParams (req_url req')
         /\ Js.ToString a = Some s).
Proof.
  intros H.
  destruct (H (answer 200 create_body_opaque_address)
              (answer 200 create_body) sample_URL_parse sample_URL_href
              sample_encodeURI sample_heap
              (getAddress (answer 200 create_body_opaque_address)
                 sample_URL_parse sample_URL_href sample_encodeURI
                 sample_heap).2
              opaque_value None None eq_refl)
    as (req' & s & _ & _ & Hs).
  discriminate Hs.
Qed.

(** C7 (amended): when [getAddress] has returned an address, that address
    is the [address_in] field of the body the create call was answered
    with and it is stored in [paymentAddress].  When it has a string form,
    as every string has, a following [fetchQRCode] on the same instance
    sends one request to the [qrcode] endpoint whose [address] query
    parameter is exactly that address; when it has none, the following
    [fetchQRCode] throws a [TypeError] and sends nothing. *)
Theorem getAddress_then_fetchQRCode
    (net net' : Network) (URL_parse : string -> option URL)
    (URL_href : URL -> string) (encodeURI : string -> string)
    (h h1 : Heap) (a : Value) (value size : option Number) :
  getAddress net URL_parse URL_href encodeURI h = (Returned a, h1) ->
  paymentAddress (this h1) = a
  /\ (exists req res cls props,
        calls h1 = calls h ++ [req]
        /\ net (calls h) req = Resolved res
        /\ json res = inr (VObj cls props)
        /\ a = Js.get (VObj cls props) "address_in")
  /\ (forall s,
        Js.ToString a = Some s ->
        exists req',
          calls (fetchQRCode net' value size h1).2 = calls h1 ++ [req']
          /\ pathname (req_url req') = endpoint_path (coin (this h)) "qrcode"
          /\ searchParams (req_url req')
             = [("value", from_option number_string "null" value);
                ("size", number_string (default (Num "512") size));
                ("address", s)])
  /\ (forall s,
        a = VStr s ->
        exists req',
          calls (fetchQRCode net' value size h1).2 = calls h1 ++ [req']
          /\ searchParams (req_url req')
             = [("value", from_option number_string "null" value);
                ("size", number_string (default (Num "512") size));
                ("address", s)])
  /\ (Js.ToString a = None ->
      fetchQRCode net' value size h1
      = (Thrown (TypeError "Cannot convert object to primitive value"), h1)).
Proof.
  intros H.
  apply getAddress_returned_inv in H
    as (Hc & Ha & req & res & cls & props & -> & Hnet & _ & J & Hget).
  simpl.
  assert (Hqr : forall s, Js.ToString a = Some s ->
            exists req',
              calls (fetchQRCode net' value size
                       (mkHeap (with_paymentAddress a (this h)) (calls h ++ [req]))).2
              = (calls h ++ [req]) ++ [req']
              /\ pathname (req_url req') = endpoint_path (coin (this h)) "qrcode"
              /\ searchParams (req_url req')
                 = [("value", from_option number_string "null" value);
                    ("size", number_string (default (Num "512") size));
                    ("address", s)]).
  { intros s Hs.
    rewrite (fetchQRCode_request net' value size _ s) by done.
    rewrite fetchData_heap. simpl.
    eexists. split; [reflexivity|]. simpl. done. }
  split; [done|]. split.
  { exists req, res, cls, props. done. }
  split; [exact Hqr|]. split.
  - intros s ->. destruct (Hqr s eq_refl) as (req' & Hcalls & _ & Hsp).
    by exists req'.
  - intros Hs. by apply fetchQRCode_unconvertible.
Qed.

Lemma getAddress_then_fetchQRCode_witness :
  paymentAddress
    (this (getAddress (answer 200 create_body) sample_URL_parse sample_URL_href
             sample_encodeURI sample_heap).2)
  = VStr "0x1234"
  /\ exists req',
       calls (fetchQRCode (answer 200 error_body) (Some (Num "0.5"))
                (Some (Num "300"))
                (getAddress (answer 200 create_body) sample_URL_parse
                   sample_URL_href sample_encodeURI sample_heap).2).2
       = calls (getAddress (answer 200 create_body) sample_URL_parse
                  sample_URL_href sample_encodeURI sample_heap).2 ++ [req']
       /\ searchParams (req_url req')
          = [("value", "0.5"); ("size", "300"); ("address", "0x1234")].
Proof.
  destruct (getAddress_then_fetchQRCode (answer 200 create_body)
              (answer 200 error_body) sample_URL_parse sample_URL_href
              sample_encodeURI sample_heap
              (getAddress (answer 200 create_body) sample_URL_parse
                 sample_URL_href sample_encodeURI sample_heap).2
              (VStr "0x1234") (Some (Num "0.5")) (Some (Num "300")) eq_refl)
    as (Hpa & _ & Hqr & _).
  split; [exact Hpa|].
  destruct (Hqr "0x1234" eq_refl) as (req' & Hcalls & _ & Hsp).
  exists req'. split; [exact Hcalls|exact Hsp].
Defined.

(** C8 (as stated, refuted): [fetchQRCode] does not raise a local error
    only when the coin is missing: on an instance with coin ["btc"], an
    empty [ownAddress] and no payment address yet, it throws
    "Address not set" without any transport call. *)
Lemma fetchQRCode_local_error_counterexample :
  ~ (forall (net : Network) (value size : option Number) (h : Heap),
       (raises_locally (fetchQRCode net value size h) h <-> coin (this h) = "")
       /\ (paymentAddress (this h) = VStr "" -> coin (this h) ≠ "" ->
           ~ raises_locally (fetchQRCode net value size h) h)).
Proof.
  intros H.
  destruct (H (answer 200 create_body) None None
              (mkHeap (mkCryptAPI (VStr "") "btc" "" "https://cb" [] []) []))
    as [_ Hno].
  apply Hno; [reflexivity|discriminate|].
  split; [by exists (Error "Address not set")|reflexivity].
Qed.

(** C8 (amended): [fetchQRCode] raises a local error exactly when the
    instance's [coin] or [ownAddress] is empty ("Coin not set", "Address
    not set") or the stored payment address has no string form (a
    [TypeError]; this needs an earlier create call that returned such an
    [address_in]).  When [coin] and [ownAddress] are set, a missing payment
    address (still the empty string) raises no local error: one request is
    sent to the gateway with an empty [address] parameter, and the outcome
    is the gateway's; in general the request carries the string form of
    the stored payment address. *)
Theorem fetchQRCode_local_error
    (net : Network) (value size : option Number) (h : Heap) :
  (raises_locally (fetchQRCode net value size h) h
   <-> coin (this h) = "" \/ ownAddress (this h) = ""
       \/ Js.ToString (paymentAddress (this h)) = None)
  /\ (coin (this h) = "" ->
      fetchQRCode net value size h = (Thrown (Error "Coin not set"), h))
  /\ (coin (this h) ≠ "" -> ownAddress (this h) = "" ->
      fetchQRCode net value size h = (Thrown (Error "Address not set"), h))
  /\ (coin (this h) ≠ "" -> ownAddress (this h) ≠ "" ->
      Js.ToString (paymentAddress (this h)) = None ->
      fetchQRCode net value size h
      = (Thrown (TypeError "Cannot convert object to primitive value"), h))
  /\ (forall s,
        coin (this h) ≠ "" -> ownAddress (this h) ≠ "" ->
        Js.ToString (paymentAddress (this h)) = Some s ->
        exists req,
          fetchQRCode net value size h
          = fetchData net (req_url req) (req_init req) h
          /\ calls (fetchQRCode net value size h).2 = calls h ++ [req]
          /\ searchParams (req_url req)
             = [("value", from_option number_string "null" value);
                ("size", number_string (default (Num "512") size));
                ("address", s)])
  /\ (coin (this h) ≠ "" -> ownAddress (this h) ≠ "" ->
      paymentAddress (this h) = VStr "" ->
      exists req,
        fetchQRCode net value size h
        = fetchData net (req_url req) (req_init req) h
        /\ calls (fetchQRCode net value size h).2 = calls h ++ [req]
        /\ searchParams (req_url req)
           = [("value", from_option number_string "null" value);
              ("size", number_string (default (Num "512") size));
              ("address", "")]).
Proof.
  assert (H1 : coin (this h) = "" ->
               fetchQRCode net value size h = (Thrown (Error "Coin not set"), h)).
  { intros Hc. run_method. by rewrite Hc. }
  assert (H2 : coin (this h) ≠ "" -> ownAddress (this h) = "" ->
               fetchQRCode net value size h = (Thrown (Error "Address not set"), h)).
  { intros Hc Ha. run_method. apply truthy_string_true in Hc. by rewrite Hc, Ha. }
  assert (H3 : forall s, coin (this h) ≠ "" -> ownAddress (this h) ≠ "" ->
      Js.ToString (paymentAddress (this h)) = Some s ->
      exists req,
        fetchQRCode net value size h
        = fetchData net (req_url req) (req_init req) h
        /\ calls (fetchQRCode net value size h).2 = calls h ++ [req]
        /\ searchParams (req_url req)
           = [("value", from_option number_string "null" value);
              ("size", number_string (default (Num "512") size));
              ("address", s)]).
  { intros s Hc Ha Hs. rewrite (fetchQRCode_request net value size h s) by done.
    eexists (mkRequest _ _). simpl. split; [reflexivity|].
    rewrite fetchData_heap. done. }
  pose proof (fetchQRCode_unconvertible net value size h) as H4.
  split; [|split; [done|split; [done|split; [done|split; [done|]]]]].
  - split.
    + intros [_ Hcalls].
      destruct (decide (coin (this h) = "")) as [Hc|Hc]; [by left|].
      destruct (decide (ownAddress (this h) = "")) as [Ha|Ha]; [by right; left|].
      destruct (Js.ToString (paymentAddress (this h))) as [s|] eqn:Hs;
        [|by right; right].
      destruct (H3 s Hc Ha eq_refl) as (req & _ & Hreq & _).
      rewrite Hreq in Hcalls. apply (f_equal length) in Hcalls.
      rewrite length_app in Hcalls. simpl in Hcalls. lia.
    + intros Hempty.
      destruct (decide (coin (this h) = "")) as [Hc|Hc].
      { rewrite (H1 Hc). split; [by eexists|done]. }
      destruct (decide (ownAddress (this h) = "")) as [Ha|Ha].
      { rewrite (H2 Hc Ha). split; [by eexists|done]. }
      destruct Hempty as [?|[?|Hs]]; [done|done|].
      rewrite (H4 Hc Ha Hs). split; [by eexists|done].
  - intros Hc Ha Hpa. apply (H3 "" Hc Ha). by rewrite Hpa.
Qed.

(** The sample instance before any [getAddress]: the request goes out with
    an empty [address]. *)
Lemma fetchQRCode_local_error_witness :
  exists req,
    calls (fetchQRCode (answer 400 error_body) (Some (Num "1")) None sample_heap).2
    = calls sample_heap ++ [req]
    /\ searchParams (req_url req)
       = [("value", "1"); ("size", "512"); ("address", "")].
Proof.
  destruct (fetchQRCode_local_error (answer 400 error_body) (Some (Num "1")) None
              sample_heap) as (_ & _ & _ & _ & _ & H).
  destruct H as (req & _ & Hcalls & Hsp);
    [discriminate|discriminate|reflexivity|].
  exists req. split; [exact Hcalls|exact Hsp].
Defined.

(** C10: [checkLogs] and [fetchQRCode] leave the instance as it is;
    [getAddress] leaves it as it is when it throws and, when it returns an
    address, changes [paymentAddress] to that address and nothing else:
    [coin], [ownAddress], [callbackUrl], [parameters] and [caParams] are
    the same after every call. *)
Theorem instance_frame
    (net : Network) (URL_parse : string -> option URL)
    (URL_href : URL -> string) (encodeURI : string -> string)
    (value size : option Number) (h : Heap) :
  this (checkLogs net URL_parse URL_href encodeURI h).2 = this h
  /\ this (fetchQRCode net value size h).2 = this h
  /\ this (getAddress net URL_parse URL_href encodeURI h).2
     = match (getAddress net URL_parse URL_href encodeURI h).1 with
       | Returned address_in => with_paymentAddress address_in (this h)
       | Thrown _ => this h
       end
  /\ (forall v t,
        coin (with_paymentAddress v t) = coin t
        /\ ownAddress (with_paymentAddress v t) = ownAddress t
        /\ callbackUrl (with_paymentAddress v t) = callbackUrl t
        /\ parameters (with_paymentAddress v t) = parameters t
        /\ caParams (with_paymentAddress v t) = caParams t
        /\ paymentAddress (with_paymentAddress v t) = v).
Proof.
  split; [|split; [|split]].
  - run_method.
    destruct (negb (Js.truthy_string (coin (this h)))
              || negb (Js.truthy_string (callbackUrl (this h)))); [done|].
    destruct (URL_parse (callbackUrl (this h))); simpl; [|done].
    apply makeRequest_this.
  - run_method.
    destruct (negb (Js.truthy_string (coin (this h)))); [done|].
    destruct (negb (Js.truthy_string (ownAddress (this h)))); [done|].
    apply makeRequest_this.
  - run_method.
    destruct (negb (Js.truthy_string (coin (this h)))); [done|].
    destruct (negb (Js.truthy_string (callbackUrl (this h)))); [done|].
    destruct (negb (Js.truthy_string (ownAddress (this h)))); [done|].
    destruct (URL_parse (callbackUrl (this h))) as [cbUrl|]; simpl; [|done].
    match goal with
    | |- context [makeRequest net ?e ?c ?p h] =>
        pose proof (makeRequest_this net e c p h) as Hthis;
        destruct (makeRequest net e c p h) as [[resp|e'] h']
    end; simpl in *; by rewrite ?Hthis.
  - intros v t. done.
Qed.

(** * Further properties *)

(** ** fetchData *)

(** X1: [fetchData] yields a success exactly when the transport resolves to
    a response with a 2xx status whose body parses to an object or an
    array; every other run ends in an exception. *)
Theorem fetchData_success_iff
    (net : Network) (url : URL) (fetchParams : RequestInit) (h : Heap) :
  (exists v, (fetchData net url fetchParams h).1 = Returned v)
  <-> (exists res cls props,
         net (calls h) (mkRequest url fetchParams) = Resolved res
         /\ ok res = true
         /\ json res = inr (VObj cls props)).
Proof.
  split.
  - intros [v Hv].
    apply fetchData_returned_inv in Hv as (res & cls & props & ? & ? & ? & _).
    by exists res, cls, props.
  - intros (res & cls & props & H & Hok & J).
    eexists. by apply (fetchData_ok_object net url fetchParams h res cls props).
Qed.

Lemma fetchData_success_iff_witness :
  exists v,
    (fetchData (answer 204 create_body) new_URL_baseURL request_init sample_heap).1
    = Returned v.
Proof.
  apply (proj2 (fetchData_success_iff (answer 204 create_body) new_URL_baseURL
                  request_init sample_heap)).
  exists (mkResponse 204 (inr create_body)), PlainObject,
    [("status", VStr "success");
     ("address_in", VStr "0x1234");
     ("address_out", VStr "0xA6B78B56ee062185E405a1DDDD18cE8fcBC4395d")].
  split; [reflexivity|]. split; reflexivity.
Defined.

(** X2: a 2xx response whose body parses to [null] or to a scalar makes
    the assignment [resp["status"] = "success"] throw: [fetchData] ends in
    a [TypeError], after its one transport call, and not in the error
    "Invalid success response structure". *)
Theorem fetchData_2xx_scalar_body
    (net : Network) (url : URL) (fetchParams : RequestInit) (h : Heap)
    (res : Response) (body : Value) :
  net (calls h) (mkRequest url fetchParams) = Resolved res ->
  ok res = true ->
  json res = inr body ->
  (forall cls props, body ≠ VObj cls props) ->
  exists msg,
    fetchData net url fetchParams h
    = (Thrown (TypeError msg), record_call h (mkRequest url fetchParams)).
Proof.
  intros H Hok J Hbody. run_fetchData. rewrite H. simpl. rewrite J, Hok. simpl.
  destruct body as [| |b|n|s|cls props]; simpl; try by eexists.
  by destruct (Hbody cls props).
Qed.

Lemma fetchData_2xx_scalar_body_witness :
  exists msg,
    fetchData (answer 200 VNull) new_URL_baseURL request_init sample_heap
    = (Thrown (TypeError msg),
       record_call sample_heap (mkRequest new_URL_baseURL request_init)).
Proof.
  apply (fetchData_2xx_scalar_body (answer 200 VNull) new_URL_baseURL
           request_init sample_heap (mkResponse 200 (inr VNull)) VNull);
    [reflexivity|reflexivity|reflexivity|discriminate].
Defined.

(** X3: the [catch] clause of [fetchData] rethrows what it caught: when
    the transport rejects, or when the body does not parse (whatever the
    status), the caller gets that very exception. *)
Theorem fetchData_rethrows
    (net : Network) (url : URL) (fetchParams : RequestInit) (h : Heap)
    (e : Exn) :
  net (calls h) (mkRequest url fetchParams) = Rejected e
  \/ (exists res,
        net (calls h) (mkRequest url fetchParams) = Resolved res
        /\ json res = inl e) ->
  fetchData net url fetchParams h
  = (Thrown e, record_call h (mkRequest url fetchParams)).
Proof.
  intros [H|(res & H & J)]; run_fetchData; rewrite H; simpl; [done|].
  by rewrite J.
Qed.

Lemma fetchData_rethrows_witness :
  fetchData (fun _ _ => Rejected (TypeError "fetch failed")) new_URL_baseURL
    request_init sample_heap
  = (Thrown (TypeError "fetch failed"),
     record_call sample_heap (mkRequest new_URL_baseURL request_init)).
Proof.
  apply (fetchData_rethrows (fun _ _ => Rejected (TypeError "fetch failed"))).
  left. reflexivity.
Defined.

(** ** makeRequest *)

Lemma append_params_query params keys :
  forall url,
    Forall (convertible params) keys ->
    append_params params keys url
    = Returned (mkURL (origin url) (pathname url)
                  (searchParams url ++ map (query_entry params) keys)).
Proof.
  induction keys as [|key keys IH]; intros url Hall; simpl.
  - rewrite app_nil_r. by destruct url.
  - apply Forall_cons in Hall as [[s Hs] Hall].
    unfold Js.to_string. rewrite Hs. rewrite IH by done. simpl.
    unfold query_entry at 2. rewrite Hs. simpl. by rewrite <- app_assoc.
Qed.

Lemma append_params_unconvertible params keys :
  forall url,
    Exists (fun key => ~ convertible params key) keys ->
    append_params params keys url
    = Thrown (TypeError "Cannot convert object to primitive value").
Proof.
  induction keys as [|key keys IH]; intros url Hex; simpl.
  - by apply Exists_nil in Hex.
  - unfold Js.to_string.
    destruct (Js.ToString (Js.get (VObj PlainObject params) key)) as [s|] eqn:Hs;
      [|done].
    apply Exists_cons in Hex as [Hk|Hex]; [|by apply IH].
    destruct Hk. unfold convertible. by rewrite Hs.
Qed.

Lemma makeRequest_calls_inv net endpoint coin params h req :
  calls (makeRequest net endpoint coin params h).2 = calls h ++ [req] ->
  request_url endpoint coin params = Returned (req_url req)
  /\ req_init req = request_init.
Proof.
  rewrite makeRequest_unfold.
  destruct (request_url endpoint coin params) as [url|e]; simpl.
  - rewrite fetchData_heap. simpl. intros H.
    by apply app_inv_head in H as [= <-].
  - intros H. apply (f_equal length) in H. rewrite length_app in H.
    simpl in H. lia.
Qed.

Lemma makeRequest_at_most_one_call net endpoint coin params h :
  at_most_one_call h (makeRequest net endpoint coin params h).2.
Proof.
  rewrite makeRequest_unfold.
  destruct (request_url endpoint coin params) as [url|e] eqn:E; [|by left].
  right. rewrite fetchData_heap. eexists. split; [reflexivity|].
  split; [reflexivity|]. simpl.
  unfold request_url in E. destruct params as [ps|].
  - by apply append_params_spec in E as [-> _].
  - by injection E as <-.
Qed.

(** X4: [makeRequest] sends its request exactly when every parameter value
    has a string form.  Then it makes one transport call, whose query holds
    the parameters in key order, each converted to a string; otherwise it
    throws a [TypeError] and makes no transport call. *)
Theorem makeRequest_parameters
    (net : Network) (endpoint : string) (coin : option string)
    (params : Props) (h : Heap) :
  (Forall (convertible params) params.*1 ->
   exists req,
     makeRequest net endpoint coin (Some params) h
     = fetchData net (req_url req) request_init h
     /\ calls (makeRequest net endpoint coin (Some params) h).2
        = calls h ++ [req]
     /\ searchParams (req_url req) = map (query_entry params) params.*1)
  /\ (Exists (fun key => ~ convertible params key) params.*1 ->
      makeRequest net endpoint coin (Some params) h
      = (Thrown (TypeError "Cannot convert object to primitive value"), h)).
Proof.
  split.
  - intros Hall. rewrite makeRequest_unfold. unfold request_url.
    rewrite append_params_query by done.
    eexists (mkRequest _ request_init). simpl.
    split; [reflexivity|]. by rewrite fetchData_heap.
  - intros Hex. rewrite makeRequest_unfold. unfold request_url.
    by rewrite append_params_unconvertible.
Qed.

Lemma makeRequest_parameters_witness :
  (exists req,
     calls (makeRequest (answer 200 create_body) "create" (Some "btc")
              (Some [("multi_chain", VNum (Num "1")); ("post", VBool true); ("x", VNull)])
              sample_heap).2
     = calls sample_heap ++ [req]
     /\ searchParams (req_url req)
        = [("multi_chain", "1"); ("post", "true"); ("x", "null")])
  /\ makeRequest (answer 200 create_body) "create" (Some "btc")
       (Some [("multi_chain", VNum (Num "1")); ("json", opaque_value)]) sample_heap
     = (Thrown (TypeError "Cannot convert object to primitive value"), sample_heap).
Proof.
  split.
  - destruct (makeRequest_parameters (answer 200 create_body) "create"
                (Some "btc")
                [("multi_chain", VNum (Num "1")); ("post", VBool true); ("x", VNull)]
                sample_heap) as [H _].
    destruct H as (req & _ & Hcalls & Hq).
    + repeat constructor; by eexists.
    + exists req. split; [exact Hcalls|exact Hq].
  - destruct (makeRequest_parameters (answer 200 create_body) "create"
                (Some "btc") [("multi_chain", VNum (Num "1")); ("json", opaque_value)]
                sample_heap) as [_ H].
    apply H. right. left. intros [s Hs]. discriminate Hs.
Defined.

(** ** The operations and the transport *)

(** X5: no operation retries or fans out: each of [fetchServiceInfo],
    [fetchSupportedCoins], [fetchEstimatedFees], [fetchConversion],
    [getAddress], [checkLogs] and [fetchQRCode] makes at most one transport
    call, and that call is a [GET] with the fixed [Referer] header and
    credentials to the fixed host. *)
Theorem operations_make_at_most_one_call
    (net : Network) (URL_parse : string -> option URL)
    (URL_href : URL -> string) (encodeURI : string -> string) (h : Heap)
    (prices : bool) (ticker from : string) (addresses value_ size : option Number)
    (priority : option string) (amount : Number) :
  at_most_one_call h (fetchServiceInfo net prices h).2
  /\ at_most_one_call h (fetchSupportedCoins net h).2
  /\ at_most_one_call h (fetchEstimatedFees net ticker addresses priority h).2
  /\ at_most_one_call h (fetchConversion net ticker amount from h).2
  /\ at_most_one_call h (getAddress net URL_parse URL_href encodeURI h).2
  /\ at_most_one_call h (checkLogs net URL_parse URL_href encodeURI h).2
  /\ at_most_one_call h (fetchQRCode net value_ size h).2.
Proof.
  split; [apply makeRequest_at_most_one_call|].
  split.
  { unfold fetchSupportedCoins, try_catch, bind, lift, ret.
    pose proof (makeRequest_at_most_one_call net "info" None
                  (Some [("prices", VNum (Num "0"))]) h) as Hone.
    fold (fetchServiceInfo net false) in Hone.
    destruct (fetchServiceInfo net false h) as [[v|e] h']; simpl in *; [|done].
    by destruct (rest_without "fee_tiers" v). }
  split; [apply makeRequest_at_most_one_call|].
  split; [apply makeRequest_at_most_one_call|].
  split.
  { run_method.
    destruct (negb (Js.truthy_string (coin (this h)))); [by left|].
    destruct (negb (Js.truthy_string (callbackUrl (this h)))); [by left|].
    destruct (negb (Js.truthy_string (ownAddress (this h)))); [by left|].
    destruct (URL_parse (callbackUrl (this h))) as [cbUrl|]; simpl; [|by left].
    match goal with
    | |- context [makeRequest net ?e ?c ?p h] =>
        pose proof (makeRequest_at_most_one_call net e c p h) as Hone;
        destruct (makeRequest net e c p h) as [[resp|e'] h']
    end; done. }
  split.
  { run_method.
    destruct (negb (Js.truthy_string (coin (this h)))
              || negb (Js.truthy_string (callbackUrl (this h)))); [by left|].
    destruct (URL_parse (callbackUrl (this h))) as [cbUrl|]; simpl; [|by left].
    apply makeRequest_at_most_one_call. }
  run_method.
  destruct (negb (Js.truthy_string (coin (this h)))); [by left|].
  destruct (negb (Js.truthy_string (ownAddress (this h)))); [by left|].
  apply makeRequest_at_most_one_call.
Qed.

(** ** The callback URL *)

(** X6: the loop over [this.parameters] appends to the callback URL the
    parameters whose value is a string or a number, in their order and
    converted to strings, and skips every other value (booleans, [null],
    objects); origin and path of the URL are untouched. *)
Theorem append_parameters_query (ps : Props) (cbUrl : URL) :
  append_parameters ps cbUrl
  = mkURL (origin cbUrl) (pathname cbUrl)
      (searchParams cbUrl ++ omap callback_parameter ps).
Proof.
  revert cbUrl. induction ps as [|[k v] ps IH]; intros cbUrl; simpl.
  - rewrite app_nil_r. by destruct cbUrl.
  - rewrite IH. unfold callback_parameter at 2. simpl.
    destruct (Js.typeof_string_or_number v); simpl; [|done].
    by rewrite <- app_assoc.
Qed.

Example append_parameters_sample :
  searchParams
    (append_parameters
       [("order_id", VNum (Num "12345")); ("paid", VBool true); ("user", VStr "bob");
        ("meta", VNull)]
       (mkURL "https://shop.example" "/cb" []))
  = [("order_id", "12345"); ("user", "bob")].
Proof. reflexivity. Qed.

(** ** checkLogs *)

(** X7: [checkLogs] in full.  With an empty [coin] or [callbackUrl] it
    throws "Coin or callback URL not set" without a transport call; with a
    callback URL the platform rejects it throws the parser's [TypeError],
    again without a call; otherwise it sends one request to the [logs]
    endpoint of the coin whose only query parameter is the encoded callback
    URL, and its outcome is that of [fetchData].  Neither [ownAddress] nor
    [caParams] plays a part. *)
Theorem checkLogs_cases
    (net : Network) (URL_parse : string -> option URL)
    (URL_href : URL -> string) (encodeURI : string -> string) (h : Heap) :
  (coin (this h) = "" \/ callbackUrl (this h) = "" ->
   checkLogs net URL_parse URL_href encodeURI h
   = (Thrown (Error "Coin or callback URL not set"), h))
  /\ (coin (this h) ≠ "" -> callbackUrl (this h) ≠ "" ->
      URL_parse (callbackUrl (this h)) = None ->
      checkLogs net URL_parse URL_href encodeURI h
      = (Thrown (TypeError "Invalid URL"), h))
  /\ (forall cbUrl,
        coin (this h) ≠ "" -> callbackUrl (this h) ≠ "" ->
        URL_parse (callbackUrl (this h)) = Some cbUrl ->
        checkLogs net URL_parse URL_href encodeURI h
        = fetchData net
            (mkURL baseURL (endpoint_path (coin (this h)) "logs")
               [("callback",
                 encodeURI (URL_href (append_parameters (parameters (this h)) cbUrl)))])
            request_init h).
Proof.
  split; [|split].
  - intros Hempty. run_method.
    destruct Hempty as [-> | ->]; simpl; [done|].
    by rewrite orb_true_r.
  - intros Hc Hcb Hp. run_method.
    apply truthy_string_true in Hc, Hcb. by rewrite Hc, Hcb, Hp.
  - intros cbUrl Hc Hcb Hp. run_method.
    apply truthy_string_true in Hc, Hcb. rewrite Hc, Hcb, Hp. simpl.
    rewrite makeRequest_unfold. unfold request_url, request_target, endpoint_path.
    by rewrite Hc.
Qed.

Lemma checkLogs_cases_witness :
  checkLogs (answer 200 create_body) sample_URL_parse sample_URL_href
    sample_encodeURI
    (mkHeap (mkCryptAPI (VStr "") "btc" "" "" [] []) [])
  = (Thrown (Error "Coin or callback URL not set"),
     mkHeap (mkCryptAPI (VStr "") "btc" "" "" [] []) [])
  /\ checkLogs (answer 200 create_body) sample_URL_parse sample_URL_href
       sample_encodeURI
       (mkHeap (mkCryptAPI (VStr "") "btc" "" "not a url" [] []) [])
     = (Thrown (TypeError "Invalid URL"),
        mkHeap (mkCryptAPI (VStr "") "btc" "" "not a url" [] []) [])
  /\ calls (checkLogs (answer 200 create_body) sample_URL_parse sample_URL_href
              sample_encodeURI sample_heap).2
     = [mkRequest
          (mkURL baseURL "/polygon/usdt/logs/"
             [("callback", "https://webhook.site/fc6e4031?order_id=12345")])
          request_init].
Proof.
  split; [|split].
  - destruct (checkLogs_cases (answer 200 create_body) sample_URL_parse
                sample_URL_href sample_encodeURI
                (mkHeap (mkCryptAPI (VStr "") "btc" "" "" [] []) []))
      as (H & _ & _).
    apply H. right. reflexivity.
  - destruct (checkLogs_cases (answer 200 create_body) sample_URL_parse
                sample_URL_href sample_encodeURI
                (mkHeap (mkCryptAPI (VStr "") "btc" "" "not a url" [] []) []))
      as (_ & H & _).
    apply H; [discriminate|discriminate|reflexivity].
  - destruct (checkLogs_cases (answer 200 create_body) sample_URL_parse
                sample_URL_href sample_encodeURI sample_heap)
      as (_ & _ & H).
    rewrite (H (mkURL "https://webhook.site/fc6e4031" "" []));
      [reflexivity|discriminate|discriminate|reflexivity].
Defined.

(** ** getAddress *)

(** X8: a callback URL that is set but that the platform's parser rejects
    makes [getAddress] throw the parser's [TypeError] before any transport
    call; the instance, [paymentAddress] included, is as before. *)
Theorem getAddress_invalid_callback_url
    (net : Network) (URL_parse : string -> option URL)
    (URL_href : URL -> string) (encodeURI : string -> string) (h : Heap) :
  coin (this h) ≠ "" -> callbackUrl (this h) ≠ "" -> ownAddress (this h) ≠ "" ->
  URL_parse (callbackUrl (this h)) = None ->
  getAddress net URL_parse URL_href encodeURI h
  = (Thrown (TypeError "Invalid URL"), h).
Proof.
  intros Hc Hcb Ha Hp. run_method.
  apply truthy_string_true in Hc, Hcb, Ha. by rewrite Hc, Hcb, Ha, Hp.
Qed.

Lemma getAddress_invalid_callback_url_witness :
  getAddress (answer 200 create_body) sample_URL_parse sample_URL_href
    sample_encodeURI
    (mkHeap (mkCryptAPI (VStr "") "btc" "0xA6" "webhook.site/x" [] []) [])
  = (Thrown (TypeError "Invalid URL"),
     mkHeap (mkCryptAPI (VStr "") "btc" "0xA6" "webhook.site/x" [] []) []).
Proof.
  apply getAddress_invalid_callback_url;
    [discriminate|discriminate|discriminate|reflexivity].
Defined.

Lemma append_params_returned_inv params keys :
  forall url url',
    append_params params keys url = Returned url' ->
    url' = mkURL (origin url) (pathname url)
             (searchParams url ++ map (query_entry params) keys).
Proof.
  induction keys as [|key keys IH]; intros url url'; simpl.
  - intros [= <-]. rewrite app_nil_r. by destruct url.
  - unfold Js.to_string.
    destruct (Js.ToString (Js.get (VObj PlainObject params) key)) as [s|] eqn:Hs;
      [|discriminate].
    intros H. apply IH in H as ->. simpl.
    unfold query_entry at 2. rewrite Hs. simpl. by rewrite <- app_assoc.
Qed.

Lemma set_prop_key k x (ps : Props) : k ∈ (Js.set_prop k x ps).*1.
Proof.
  induction ps as [|[k' v] ps IH]; simpl; [by left|].
  destruct (String.eqb_spec k k') as [->|_]; simpl; [by left|by right].
Qed.

Lemma set_prop_keys k x k' (ps : Props) :
  k' ∈ ps.*1 -> k' ∈ (Js.set_prop k x ps).*1.
Proof.
  induction ps as [|[k0 v] ps IH]; simpl; [by intros ?%elem_of_nil|].
  intros [->|H]%elem_of_cons;
    destruct (String.eqb_spec k k0) as [->|_]; simpl;
    [by left|by left|by right|right; by apply IH].
Qed.

Lemma getAddress_calls_inv net URL_parse URL_href encodeURI h req :
  calls (getAddress net URL_parse URL_href encodeURI h).2 = calls h ++ [req] ->
  exists cbUrl,
    URL_parse (callbackUrl (this h)) = Some cbUrl
    /\ request_url "create" (Some (coin (this h)))
         (Some (create_params (this h)
                  (encodeURI (URL_href (append_parameters (parameters (this h)) cbUrl)))))
       = Returned (req_url req).
Proof.
  assert (Hno : calls h ≠ calls h ++ [req]).
  { intros H. apply (f_equal length) in H. rewrite length_app in H.
    simpl in H. lia. }
  run_method.
  destruct (negb (Js.truthy_string (coin (this h)))); [done|].
  destruct (negb (Js.truthy_string (callbackUrl (this h)))); [done|].
  destruct (negb (Js.truthy_string (ownAddress (this h)))); [done|].
  destruct (URL_parse (callbackUrl (this h))) as [cbUrl|]; simpl; [|done].
  match goal with
  | |- context [makeRequest net ?e ?c ?p h] =>
      pose proof (makeRequest_calls_inv net e c p h req) as Hinv;
      destruct (makeRequest net e c p h) as [[resp|e'] h']
  end; simpl in *; intros H; exists cbUrl; split; try done;
    by destruct (Hinv H).
Qed.

(** X9: the gateway options cannot override the reserved parameters of the
    create request.  Whatever [caParams] holds, every request [getAddress]
    sends carries the instance's [ownAddress] as [address] and the encoded
    callback URL as [callback], and no other value under these names. *)
Theorem getAddress_reserved_parameters
    (net : Network) (URL_parse : string -> option URL)
    (URL_href : URL -> string) (encodeURI : string -> string)
    (h : Heap) (req : Request) :
  calls (getAddress net URL_parse URL_href encodeURI h).2 = calls h ++ [req] ->
  exists cbUrl,
    URL_parse (callbackUrl (this h)) = Some cbUrl
    /\ ("address", ownAddress (this h)) ∈ searchParams (req_url req)
    /\ (forall s, ("address", s) ∈ searchParams (req_url req) ->
                  s = ownAddress (this h))
    /\ ("callback",
        encodeURI (URL_href (append_parameters (parameters (this h)) cbUrl)))
       ∈ searchParams (req_url req)
    /\ (forall s, ("callback", s) ∈ searchParams (req_url req) ->
                  s = encodeURI
                        (URL_href (append_parameters (parameters (this h)) cbUrl))).
Proof.
  intros H. apply getAddress_calls_inv in H as (cbUrl & Hp & Hurl).
  exists cbUrl. split; [done|].
  set (cb := encodeURI (URL_href (append_parameters (parameters (this h)) cbUrl))) in *.
  set (ps := create_params (this h) cb) in *.
  unfold request_url in Hurl. apply append_params_returned_inv in Hurl.
  rewrite Hurl. simpl. clear Hurl.
  assert (Haddr : query_entry ps "address" = ("address", ownAddress (this h))).
  { unfold query_entry, Js.get, ps, create_params. simpl.
    by rewrite lookup_set_prop_eq. }
  assert (Hcb : query_entry ps "callback" = ("callback", cb)).
  { unfold query_entry, Js.get, ps, create_params. simpl.
    rewrite lookup_set_prop_ne by done. by rewrite lookup_set_prop_eq. }
  assert (Hin : forall k s, (k, s) ∈ map (query_entry ps) ps.*1 ->
                            (k, s) = query_entry ps k).
  { intros k s Hks. apply list_elem_of_fmap in Hks as (key & Heq & _).
    unfold query_entry in Heq. injection Heq as -> ->. done. }
  split; [|split; [|split]].
  - rewrite <- Haddr. apply list_elem_of_fmap. exists "address".
    split; [done|]. apply set_prop_key.
  - intros s Hs. apply Hin in Hs. rewrite Haddr in Hs. by injection Hs.
  - rewrite <- Hcb. apply list_elem_of_fmap. exists "callback".
    split; [done|]. apply set_prop_keys, set_prop_key.
  - intros s Hs. apply Hin in Hs. rewrite Hcb in Hs. by injection Hs.
Qed.

Lemma getAddress_reserved_parameters_witness :
  searchParams
    (mkURL baseURL "/btc/create/"
       [("address", "0xA6"); ("multi_chain", "1");
        ("callback", "https://webhook.site/fc6e4031")])
  = [("address", "0xA6"); ("multi_chain", "1");
     ("callback", "https://webhook.site/fc6e4031")]
  /\ forall s,
       ("address", s)
       ∈ [("address", "0xA6"); ("multi_chain", "1");
          ("callback", "https://webhook.site/fc6e4031")] ->
       s = "0xA6".
Proof.
  destruct (getAddress_reserved_parameters (answer 200 create_body)
              sample_URL_parse sample_URL_href sample_encodeURI
              (mkHeap overriding_instance [])
              (mkRequest
                 (mkURL baseURL "/btc/create/"
                    [("address", "0xA6"); ("multi_chain", "1");
                     ("callback", "https://webhook.site/fc6e4031")])
                 request_init)
              eq_refl)
    as (cbUrl & _ & _ & Hall & _).
  split; [reflexivity|exact Hall].
Defined.

(** X10: the success path of [getAddress].  On an instance with the three
    fields set and a callback URL that parses, when every gateway option
    has a string form and the create request is answered with a 2xx status
    and an object body, [getAddress] returns the body's [address_in] and
    stores it in [paymentAddress], after exactly one transport call.  The
    field is not checked: when the body has no [address_in], the call still
    succeeds, returns [undefined] and stores [undefined]. *)
Theorem getAddress_success
    (net : Network) (URL_parse : string -> option URL)
    (URL_href : URL -> string) (encodeURI : string -> string)
    (h : Heap) (cbUrl : URL) (res : Response) (cls : ObjClass) (props : Props) :
  coin (this h) ≠ "" -> callbackUrl (this h) ≠ "" -> ownAddress (this h) ≠ "" ->
  URL_parse (callbackUrl (this h)) = Some cbUrl ->
  Forall
    (convertible
       (create_params (this h) (encoded_callback URL_href encodeURI (this h) cbUrl)))
    (create_params (this h) (encoded_callback URL_href encodeURI (this h) cbUrl)).*1 ->
  net (calls h)
    (create_request (this h) (encoded_callback URL_href encodeURI (this h) cbUrl))
  = Resolved res ->
  ok res = true ->
  json res = inr (VObj cls props) ->
  getAddress net URL_parse URL_href encodeURI h
  = (Returned (Js.get (VObj cls props) "address_in"),
     mkHeap (with_paymentAddress (Js.get (VObj cls props) "address_in") (this h))
       (calls h
        ++ [create_request (this h)
              (encoded_callback URL_href encodeURI (this h) cbUrl)]))
  /\ (Js.lookup_prop "address_in" props = None ->
      getAddress net URL_parse URL_href encodeURI h
      = (Returned VUndefined,
         mkHeap (with_paymentAddress VUndefined (this h))
           (calls h
            ++ [create_request (this h)
                  (encoded_callback URL_href encodeURI (this h) cbUrl)]))).
Proof.
  intros Hc Hcb Ha Hp Hconv Hnet Hok J.
  set (t := this h) in *.
  set (ps := create_params t (encoded_callback URL_href encodeURI t cbUrl)) in *.
  set (req := create_request t (encoded_callback URL_href encodeURI t cbUrl)) in *.
  assert (Hmain :
    getAddress net URL_parse URL_href encodeURI h
    = (Returned (Js.get (VObj cls props) "address_in"),
       mkHeap (with_paymentAddress (Js.get (VObj cls props) "address_in") t)
         (calls h ++ [req]))).
  { run_method. fold t.
    apply truthy_string_true in Hc, Hcb, Ha. rewrite Hc, Hcb, Ha, Hp. simpl.
    fold (encoded_callback URL_href encodeURI t cbUrl).
    fold (create_params t (encoded_callback URL_href encodeURI t cbUrl)).
    fold ps.
    rewrite makeRequest_unfold. unfold request_url, request_target.
    rewrite Hc. rewrite append_params_query by done. simpl.
    pose proof (fetchData_ok_object net (req_url req) request_init h res cls
                  props Hnet Hok J) as Hout.
    pose proof (fetchData_heap net (req_url req) request_init h) as Hheap.
    unfold req, create_request in Hout, Hheap. simpl in Hout, Hheap.
    fold ps in Hout, Hheap.
    unfold endpoint_path in Hout, Hheap. rewrite Hc in Hout, Hheap.
    destruct (fetchData net _ request_init h) as [o h'] eqn:E.
    simpl in Hout, Hheap. subst o h'. simpl.
    unfold Js.get. simpl. rewrite lookup_set_prop_ne by done.
    unfold req, create_request, endpoint_path. fold ps. by rewrite Hc. }
  split; [exact Hmain|].
  intros Hmissing. rewrite Hmain. unfold Js.get. simpl. by rewrite Hmissing.
Qed.

Lemma getAddress_success_witness :
  getAddress (answer 200 create_body_without_address) sample_URL_parse
    sample_URL_href sample_encodeURI sample_heap
  = (Returned VUndefined,
     mkHeap (with_paymentAddress VUndefined sample_instance)
       [mkRequest
          (mkURL baseURL "/polygon/usdt/create/"
             [("multi_chain", "1"); ("convert", "1");
              ("callback", "https://webhook.site/fc6e4031?order_id=12345");
              ("address", "0xA6B78B56ee062185E405a1DDDD18cE8fcBC4395d")])
          request_init]).
Proof.
  pose proof (getAddress_success (answer 200 create_body_without_address)
                sample_URL_parse sample_URL_href sample_encodeURI sample_heap
                (mkURL "https://webhook.site/fc6e4031" "" [])
                (mkResponse 200 (inr create_body_without_address)) PlainObject
                [("status", VStr "success"); ("address_out", VStr "0xA6")])
    as H.
  destruct H as [_ H].
  - discriminate.
  - discriminate.
  - discriminate.
  - reflexivity.
  - repeat constructor; by eexists.
  - reflexivity.
  - reflexivity.
  - reflexivity.
  - apply H. reflexivity.
Defined.

(** X11: [paymentAddress] is not write-once.  A second successful
    [getAddress] on the same instance sends the same create request again
    and replaces the stored address by the one it returns; the other
    fields are still those of the start. *)
Theorem getAddress_twice
    (net net' : Network) (URL_parse : string -> option URL)
    (URL_href : URL -> string) (encodeURI : string -> string)
    (h h1 h2 : Heap) (a1 a2 : Value) :
  getAddress net URL_parse URL_href encodeURI h = (Returned a1, h1) ->
  getAddress net' URL_parse URL_href encodeURI h1 = (Returned a2, h2) ->
  this h2 = with_paymentAddress a2 (this h)
  /\ exists r1 r2,
       calls h1 = calls h ++ [r1]
       /\ calls h2 = calls h ++ [r1; r2]
       /\ req_url r2 = req_url r1.
Proof.
  intros H1 H2.
  pose proof (f_equal (fun r => calls r.2) H1) as C1.
  pose proof (f_equal (fun r => calls r.2) H2) as C2. simpl in C1, C2.
  apply getAddress_returned_inv in H1
    as (_ & _ & r1 & _ & _ & _ & E1 & _).
  apply getAddress_returned_inv in H2
    as (_ & _ & r2 & _ & _ & _ & E2 & _).
  subst h1. simpl in *. subst h2. simpl in *.
  split; [reflexivity|].
  exists r1, r2. split; [done|]. split; [by rewrite <- app_assoc|].
  apply getAddress_calls_inv in C1 as (cb1 & P1 & U1).
  apply getAddress_calls_inv in C2 as (cb2 & P2 & U2).
  simpl in *. rewrite P1 in P2. injection P2 as <-.
  unfold create_params in *. simpl in *.
  rewrite U1 in U2. by injection U2.
Qed.

Lemma getAddress_twice_witness :
  this (getAddress (answer 200 create_body_without_address) sample_URL_parse
          sample_URL_href sample_encodeURI
          (getAddress (answer 200 create_body) sample_URL_parse
             sample_URL_href sample_encodeURI sample_heap).2).2
  = with_paymentAddress VUndefined sample_instance.
Proof.
  destruct (getAddress_twice (answer 200 create_body)
              (answer 200 create_body_without_address)
              sample_URL_parse sample_URL_href sample_encodeURI sample_heap
              (getAddress (answer 200 create_body) sample_URL_parse
                 sample_URL_href sample_encodeURI sample_heap).2
              (getAddress (answer 200 create_body_without_address)
                 sample_URL_parse sample_URL_href sample_encodeURI
                 (getAddress (answer 200 create_body) sample_URL_parse
                    sample_URL_href sample_encodeURI sample_heap).2).2
              (VStr "0x1234") VUndefined eq_refl eq_refl) as [H _].
  exact H.
Defined.

(** ** The static operations *)

(** X12: the static operations validate nothing locally.
    [fetchServiceInfo], [fetchEstimatedFees] and [fetchConversion] always
    make their transport call and return what [fetchData] gives; the
    defaults are one address and priority ["default"]; and an empty coin is
    not refused, the request then goes to the path without a coin
    segment. *)
Theorem static_operations_requests
    (net : Network) (h : Heap) (prices : bool) (ticker from : string)
    (addresses : option Number) (priority : option string) (amount : Number) :
  fetchServiceInfo net prices h
  = fetchData net
      (mkURL baseURL "/info/" [("prices", if prices then "1" else "0")])
      request_init h
  /\ fetchEstimatedFees net ticker addresses priority h
     = fetchData net
         (mkURL baseURL (endpoint_path ticker "estimate")
            [("addresses", number_string (default (Num "1") addresses));
             ("priority", default "default" priority)])
         request_init h
  /\ fetchConversion net ticker amount from h
     = fetchData net
         (mkURL baseURL (endpoint_path ticker "convert")
            [("value", number_string amount); ("from", from)])
         request_init h
  /\ endpoint_path "" "estimate" = "/estimate/"
  /\ endpoint_path "" "convert" = "/convert/".
Proof.
  split; [by destruct prices|].
  split.
  { unfold fetchEstimatedFees. rewrite makeRequest_unfold.
    unfold request_url, request_target, endpoint_path.
    by destruct (Js.truthy_string ticker). }
  split; [|done].
  unfold fetchConversion. rewrite makeRequest_unfold.
  unfold request_url, request_target, endpoint_path.
  by destruct (Js.truthy_string ticker).
Qed.

(** ** processServiceInfo *)

Lemma assign_own_other coins k k' v :
  k ≠ k' -> own (assign coins k' v) !! k = own coins !! k.
Proof.
  intros Hne. unfold assign.
  destruct (_ && _); [by destruct v|].
  simpl. by rewrite lookup_insert_ne.
Qed.

Lemma assign_own_is_Some coins k k' v :
  is_Some (own coins !! k) -> is_Some (own (assign coins k' v) !! k).
Proof.
  intros Hk. unfold assign.
  destruct (_ && _); [by destruct v|].
  simpl. destruct (decide (k' = k)) as [->|Hne].
  - rewrite lookup_insert_eq. by eexists.
  - by rewrite lookup_insert_ne.
Qed.

Lemma foldl_assign_other (E : list (string * Value)) :
  forall coins k,
    k ∉ E.*1 -> own (foldl assign_entry coins E) !! k = own coins !! k.
Proof.
  induction E as [|[k' v] E IH]; intros coins k Hk; [done|].
  simpl in *. apply not_elem_of_cons in Hk as [Hne Hk].
  rewrite IH by done. by apply assign_own_other.
Qed.

Lemma foldl_assign_is_Some (E : list (string * Value)) :
  forall coins k,
    is_Some (own coins !! k) -> is_Some (own (foldl assign_entry coins E) !! k).
Proof.
  induction E as [|[k' v] E IH]; intros coins k Hk; [done|].
  simpl. apply IH. by apply assign_own_is_Some.
Qed.

(** X13: the walk only adds and overwrites.  An entry of the accumulator
    whose key is not the path of a discovered coin record is left as it
    was, and no key that was in the accumulator is removed. *)
Theorem processServiceInfo_frame
    (info : Value) (coins : Coins) (prefix : string) (k : string) :
  (k ∉ (coin_entries info prefix).*1 ->
   own (processServiceInfo info coins prefix) !! k = own coins !! k)
  /\ (is_Some (own coins !! k) ->
      is_Some (own (processServiceInfo info coins prefix) !! k)).
Proof.
  rewrite processServiceInfo_entries. split.
  - apply foldl_assign_other.
  - apply foldl_assign_is_Some.
Qed.

Lemma processServiceInfo_frame_witness :
  own (processServiceInfo sample_info
         (mkCoins {["eth" := VStr "eth"]} None) "") !! "eth"
  = Some (VStr "eth").
Proof.
  destruct (processServiceInfo_frame sample_info
              (mkCoins {["eth" := VStr "eth"]} None) "" "eth") as [H _].
  rewrite H; [reflexivity|].
  apply (bool_decide_unpack _). vm_compute. exact I.
Defined.

(** X14: on a collision the last discovered record wins.  For every key
    other than ["__proto__"], the accumulator after the walk maps the key
    to the ticker of the last discovered record with that path, and to
    what it held before when there is none. *)
Theorem processServiceInfo_last_write
    (info : Value) (coins : Coins) (prefix : string) (k : string) :
  k ≠ "__proto__" ->
  own (processServiceInfo info coins prefix) !! k
  = match last_write k (coin_entries info prefix) with
    | Some v => Some v
    | None => own coins !! k
    end.
Proof.
  intros Hk. rewrite processServiceInfo_entries. unfold last_write.
  induction (coin_entries info prefix) as [|[k' v] E IH] using rev_ind;
    [done|].
  rewrite foldl_snoc, omap_app. simpl. unfold assign_entry at 1. simpl.
  destruct (decide (k' = k)) as [->|Hne].
  - rewrite last_snoc. rewrite assign_plain by done. simpl.
    apply lookup_insert_eq.
  - rewrite app_nil_r. rewrite assign_own_other by done. exact IH.
Qed.

Lemma processServiceInfo_last_write_witness :
  own (processServiceInfo colliding_info empty_coins "") !! "a_b"
  = Some (VStr "Y").
Proof.
  rewrite (processServiceInfo_last_write colliding_info empty_coins "" "a_b");
    [reflexivity|discriminate].
Defined.

Lemma coin_entries_prefix info :
  forall p q,
    coin_entries info (p +:+ q) = map (prefixed p) (coin_entries info q).
Proof.
  induction info as [| |b|n|s|cls props IH] using Value_induction;
    intros p q; try reflexivity.
  simpl. induction IH as [|[key value] ps Hv _ IHps]; [reflexivity|].
  simpl. rewrite map_app, IHps. f_equal.
  destruct value as [| |b|n|s|c fields]; try reflexivity.
  destruct (Js.has_own "ticker" fields).
  - simpl. unfold prefixed. simpl. by rewrite append_assoc.
  - rewrite <- Hv. by rewrite !append_assoc.
Qed.

(** X15: the prefix is only put in front.  The walk under a prefix makes
    the assignments of the walk under the empty prefix, in the same order
    and with the same tickers, each key with the prefix before it; so every
    key the walk writes starts with the prefix. *)
Theorem processServiceInfo_prefix
    (info : Value) (coins : Coins) (prefix : string) :
  processServiceInfo info coins prefix
  = foldl assign_entry coins (map (prefixed prefix) (coin_entries info ""))
  /\ (forall k,
        own (processServiceInfo info coins prefix) !! k ≠ own coins !! k ->
        exists suffix, k = prefix +:+ suffix).
Proof.
  assert (Hp : coin_entries info prefix
               = map (prefixed prefix) (coin_entries info "")).
  { rewrite <- coin_entries_prefix. by rewrite append_nil_r. }
  split.
  - by rewrite processServiceInfo_entries, Hp.
  - intros k Hk.
    destruct (decide (k ∈ (coin_entries info prefix).*1)) as [Hin|Hnot].
    + rewrite Hp in Hin. apply list_elem_of_fmap in Hin as ([k0 v0] & -> & Hin).
      apply list_elem_of_fmap in Hin as ([k1 v1] & [= -> ->] & _).
      by exists k1.
    + destruct Hk. rewrite processServiceInfo_entries.
      by apply foldl_assign_other.
Qed.

Lemma processServiceInfo_prefix_witness :
  exists suffix, "erc20_usdt" = "erc20_" +:+ suffix.
Proof.
  destruct (processServiceInfo_prefix
              (VObj PlainObject [("usdt", VObj PlainObject [("ticker", VStr "USDT")])])
              empty_coins "erc20_") as [_ H].
  apply H. vm_compute. discriminate.
Defined.

Lemma ticker_free_entries v :
  ticker_free v = true -> forall p, coin_entries v p = [].
Proof.
  induction v as [| |b|n|s|cls props IH] using Value_induction;
    intros Hfree p; try reflexivity.
  simpl in *. apply andb_true_iff in Hfree as [_ Hall].
  induction IH as [|[key value] ps Hv _ IHps]; [reflexivity|].
  simpl in *. apply andb_true_iff in Hall as [Hvalue Hall].
  rewrite IHps by done. rewrite app_nil_r.
  destruct value as [| |b|n|s|c fields]; try reflexivity.
  pose proof Hvalue as Hvalue'. simpl in Hvalue'.
  apply andb_true_iff in Hvalue' as [Hno _].
  apply negb_true_iff in Hno. rewrite Hno. by apply Hv.
Qed.

(** X16: stripping a key whose value holds no coin record changes nothing.
    When every object under the top-level key [k] is without a [ticker]
    field (as the [fee_tiers] array of the gateway is), the walk of the
    rest object [{k, ...rest}] gives the same accumulator as the walk of
    the whole object. *)
Theorem processServiceInfo_rest_without
    (cls : ObjClass) (props : Props) (k : string) (rest : Value)
    (coins : Coins) (prefix : string) :
  (forall v, (k, v) ∈ props -> ticker_free v = true) ->
  rest_without k (VObj cls props) = Returned rest ->
  processServiceInfo rest coins prefix
  = processServiceInfo (VObj cls props) coins prefix.
Proof.
  intros Hfree [= <-]. rewrite !processServiceInfo_entries. f_equal.
  simpl. induction props as [|[key value] ps IH]; [reflexivity|].
  rewrite filter_cons. simpl.
  assert (Hps : forall v, (k, v) ∈ ps -> ticker_free v = true).
  { intros v Hv. apply Hfree. by right. }
  destruct (String.eqb_spec key k) as [->|Hne]; simpl.
  - rewrite IH by done.
    assert (Hvalue : ticker_free value = true) by (apply Hfree; by left).
    destruct value as [| |b|n|s|c fields]; try reflexivity.
    pose proof Hvalue as Hvalue'. simpl in Hvalue'.
    apply andb_true_iff in Hvalue' as [Hno _].
    apply negb_true_iff in Hno. rewrite Hno.
    by rewrite ticker_free_entries.
  - by rewrite IH.
Qed.

Lemma processServiceInfo_rest_without_witness :
  processServiceInfo
    (VObj PlainObject
       [("btc", VObj PlainObject [("ticker", VStr "btc")])])
    empty_coins ""
  = processServiceInfo
      (VObj PlainObject
         [("btc", VObj PlainObject [("ticker", VStr "btc")]);
          ("fee_tiers", sample_fee_tiers)])
      empty_coins "".
Proof.
  apply (processServiceInfo_rest_without PlainObject
           [("btc", VObj PlainObject [("ticker", VStr "btc")]);
            ("fee_tiers", sample_fee_tiers)] "fee_tiers").
  - intros v Hv.
    apply elem_of_cons in Hv as [Hv|Hv]; [discriminate Hv|].
    apply elem_of_cons in Hv as [Hv|Hv]; [by injection Hv as ->|].
    by apply elem_of_nil in Hv.
  - reflexivity.
Defined.

(** With a coin record inside [fee_tiers], stripping the key does change
    the result. *)
Example fee_tiers_with_coin_record :
  own (processServiceInfo info_with_coin_in_fee_tiers empty_coins "")
  !! "fee_tiers_0"
  = Some (VStr "odd").
Proof. vm_compute. reflexivity. Qed.

(** X17: a coin record is not walked.  The walk reads the [ticker] of an
    object that has one and nothing else of it: two inputs that differ in
    the other fields of such a record (its price data, say, which may hold
    objects with a [ticker] of their own) give the same accumulator. *)
Theorem processServiceInfo_record_opaque
    (cls : ObjClass) (before after : Props) (key : string)
    (c1 c2 : ObjClass) (fields1 fields2 : Props)
    (coins : Coins) (prefix : string) :
  Js.has_own "ticker" fields1 = true ->
  Js.has_own "ticker" fields2 = true ->
  Js.get (VObj c1 fields1) "ticker" = Js.get (VObj c2 fields2) "ticker" ->
  processServiceInfo (VObj cls (before ++ (key, VObj c1 fields1) :: after))
    coins prefix
  = processServiceInfo (VObj cls (before ++ (key, VObj c2 fields2) :: after))
      coins prefix.
Proof.
  intros H1 H2 Hticker. rewrite !processServiceInfo_entries. f_equal.
  simpl. rewrite !flat_map_app. simpl. by rewrite H1, H2, Hticker.
Qed.

Lemma processServiceInfo_record_opaque_witness :
  processServiceInfo (VObj PlainObject [("btc", priced_record)]) empty_coins ""
  = processServiceInfo
      (VObj PlainObject [("btc", VObj PlainObject [("ticker", VStr "btc")])])
      empty_coins "".
Proof.
  apply (processServiceInfo_record_opaque PlainObject [] [] "btc"
           PlainObject PlainObject
           [("coin", VStr "Bitcoin"); ("ticker", VStr "btc");
            ("prices",
             VObj PlainObject [("USD", VStr "60000"); ("ticker", VStr "usd")])]
           [("ticker", VStr "btc")]);
    reflexivity.
Defined.

(** ** fetchSupportedCoins *)

Lemma contains_append c (a b : string) :
  Js.contains c (a +:+ b) = Js.contains c a || Js.contains c b.
Proof.
  induction a as [|x a IH]; [done|].
  rewrite append_cons. simpl. by rewrite IH, orb_assoc.
Qed.

Lemma set_prop_unique k x (ps : Props) :
  NoDup ps.*1 -> forall v, (k, v) ∈ Js.set_prop k x ps -> v = x.
Proof.
  induction ps as [|[k' v'] ps IH]; simpl; intros Hnd v Hin.
  - apply list_elem_of_singleton in Hin. by injection Hin.
  - apply NoDup_cons in Hnd as [Hk' Hnd].
    destruct (String.eqb_spec k k') as [->|Hne].
    + apply elem_of_cons in Hin as [[= ->]|Hin]; [done|].
      destruct Hk'. apply list_elem_of_fmap. by exists (k', v).
    + apply elem_of_cons in Hin as [[= -> ->]|Hin]; [done|by apply IH].
Qed.

Lemma status_is_no_path cls (props : Props) :
  (forall v, ("status", v) ∈ props -> v = VStr "success") ->
  "status" ∉ (coin_entries (VObj cls props) "").*1.
Proof.
  induction props as [|[key value] ps IH]; intros Hstatus; simpl.
  - apply not_elem_of_nil.
  - rewrite fmap_app. apply not_elem_of_app. split.
    + destruct value as [| |b|n|s|c fields]; try apply not_elem_of_nil.
      assert (Hkey : key ≠ "status").
      { intros ->. by specialize (Hstatus _ (list_elem_of_here _ _)). }
      destruct (Js.has_own "ticker" fields).
      * simpl. apply not_elem_of_cons. split; [|apply not_elem_of_nil].
        intros Heq. apply Hkey. symmetry. exact Heq.
      * rewrite <- (append_nil_r ("" +:+ key +:+ "_")).
        rewrite coin_entries_prefix.
        intros Hin. apply list_elem_of_fmap in Hin as ([k0 v0] & Hk0 & Hin).
        apply list_elem_of_fmap in Hin as ([k1 v1] & [= -> ->] & _).
        simpl in Hk0. apply (f_equal (Js.contains "_"%char)) in Hk0.
        rewrite !contains_append in Hk0. simpl in Hk0.
        rewrite orb_true_r in Hk0. discriminate Hk0.
    + apply IH. intros v Hv. apply Hstatus. by right.
Qed.

Lemma fetchSupportedCoins_returned_inv net h coins :
  (fetchSupportedCoins net h).1 = Returned (Some coins) ->
  exists res cls props,
    net (calls h) (mkRequest info_url request_init) = Resolved res
    /\ ok res = true
    /\ json res = inr (VObj cls props)
    /\ coins
       = processServiceInfo
           (VObj PlainObject
              (filter (fun kv => negb (String.eqb kv.1 "fee_tiers"))
                 (Js.set_prop "status" (VStr "success") props)))
           empty_coins "".
Proof.
  pose proof (fetchData_returned_inv net info_url request_init h) as Hinv.
  rewrite <- fetchServiceInfo_request in Hinv.
  unfold fetchSupportedCoins, try_catch, bind, lift, ret.
  destruct (fetchServiceInfo net false h) as [[v|e] h'] eqn:E; simpl in *;
    [|discriminate].
  destruct (Hinv v eq_refl) as (res & cls & props & Hnet & Hok & J & ->). simpl.
  intros [= <-]. by exists res, cls, props.
Qed.

(** X18: the status marker never becomes a coin.  [fetchSupportedCoins]
    flattens the info response with the [status] field that [fetchData]
    has set still in it; for a response with pairwise distinct property
    names the mapping it returns has no entry ["status"]. *)
Theorem fetchSupportedCoins_no_status_entry
    (net : Network) (h : Heap) (coins : Coins) :
  (forall res body,
     net (calls h) (mkRequest info_url request_init) = Resolved res ->
     json res = inr body ->
     unique_keys body) ->
  (fetchSupportedCoins net h).1 = Returned (Some coins) ->
  own coins !! "status" = None.
Proof.
  intros Hunique H.
  apply fetchSupportedCoins_returned_inv in H
    as (res & cls & props & Hnet & _ & J & ->).
  rewrite processServiceInfo_entries, foldl_assign_other; [done|].
  apply status_is_no_path. intros v Hv.
  apply list_elem_of_filter in Hv as [_ Hv].
  apply (set_prop_unique "status" _ props); [|done].
  apply (Hunique res _ Hnet J).
Qed.

Lemma fetchSupportedCoins_no_status_entry_witness :
  own (processServiceInfo
         (VObj PlainObject
            (filter (fun kv => negb (String.eqb kv.1 "fee_tiers"))
               (Js.entries sample_info)))
         empty_coins "") !! "status"
  = None.
Proof.
  apply (fetchSupportedCoins_no_status_entry (answer 200 sample_info) sample_heap).
  - intros res body [= <-] [= <-].
    apply (bool_decide_unpack _). vm_compute. exact I.
  - reflexivity.
Defined.

(** X19: one attempt, whatever happens.  Every run of [fetchData] records
    exactly one transport call, for the URL and options it was given, and
    leaves the instance alone: a rejected call, an unparsable body or an
    error status is not retried. *)
Theorem fetchData_single_attempt
    (net : Network) (url : URL) (fetchParams : RequestInit) (h : Heap) :
  calls (fetchData net url fetchParams h).2
  = calls h ++ [mkRequest url fetchParams]
  /\ this (fetchData net url fetchParams h).2 = this h.
Proof. by rewrite fetchData_heap. Qed.

(** ** Propagation of failures *)

(** X20: [getAddress] does not absorb a failure of its request.  On an
    instance that passes the checks, when the request can be built and
    [fetchData] throws (transport rejected, body unparsable, error status),
    [getAddress] throws the same exception after that one transport call
    and the instance keeps the payment address it had. *)
Theorem getAddress_propagates_failure
    (net : Network) (URL_parse : string -> option URL)
    (URL_href : URL -> string) (encodeURI : string -> string)
    (h : Heap) (cbUrl : URL) (e : Exn) :
  coin (this h) ≠ "" -> callbackUrl (this h) ≠ "" -> ownAddress (this h) ≠ "" ->
  URL_parse (callbackUrl (this h)) = Some cbUrl ->
  Forall
    (convertible
       (create_params (this h) (encoded_callback URL_href encodeURI (this h) cbUrl)))
    (create_params (this h) (encoded_callback URL_href encodeURI (this h) cbUrl)).*1 ->
  (fetchData net
     (req_url (create_request (this h)
                 (encoded_callback URL_href encodeURI (this h) cbUrl)))
     request_init h).1
  = Thrown e ->
  getAddress net URL_parse URL_href encodeURI h
  = (Thrown e,
     mkHeap (this h)
       (calls h
        ++ [create_request (this h)
              (encoded_callback URL_href encodeURI (this h) cbUrl)])).
Proof.
  intros Hc Hcb Ha Hp Hconv Hthrown.
  set (t := this h) in *.
  set (ps := create_params t (encoded_callback URL_href encodeURI t cbUrl)) in *.
  run_method. fold t.
  apply truthy_string_true in Hc, Hcb, Ha. rewrite Hc, Hcb, Ha, Hp. simpl.
  fold (encoded_callback URL_href encodeURI t cbUrl).
  fold (create_params t (encoded_callback URL_href encodeURI t cbUrl)).
  fold ps.
  rewrite makeRequest_unfold. unfold request_url, request_target.
  rewrite Hc. rewrite append_params_query by done. simpl.
  unfold create_request in Hthrown. simpl in Hthrown. fold ps in Hthrown.
  unfold endpoint_path in Hthrown. rewrite Hc in Hthrown.
  match type of Hthrown with
  | (fetchData net ?u request_init h).1 = _ =>
      pose proof (fetchData_heap net u request_init h) as Hheap;
      destruct (fetchData net u request_init h) as [o h'] eqn:E
  end.
  simpl in Hthrown, Hheap. subst o h'. simpl.
  unfold create_request, endpoint_path, record_call. fold ps. by rewrite Hc.
Qed.

Lemma getAddress_propagates_failure_witness :
  getAddress (answer 400 error_body) sample_URL_parse sample_URL_href
    sample_encodeURI sample_heap
  = (Thrown (Error "bad coin"),
     mkHeap sample_instance
       [create_request sample_instance
          "https://webhook.site/fc6e4031?order_id=12345"]).
Proof.
  apply (getAddress_propagates_failure (answer 400 error_body) sample_URL_parse
           sample_URL_href sample_encodeURI sample_heap
           (mkURL "https://webhook.site/fc6e4031" "" []) (Error "bad coin")).
  - discriminate.
  - discriminate.
  - discriminate.
  - reflexivity.
  - repeat constructor; by eexists.
  - reflexivity.
Defined.

(** ** The prototype of the accumulator *)

Lemma assign_string_keeps_prototype coins k s :
  own coins !! "__proto__" = None ->
  reaches_proto_accessor (proto coins) = true ->
  proto (assign coins k (VStr s)) = proto coins
  /\ own (assign coins k (VStr s)) !! "__proto__" = None.
Proof.
  intros Hown Hreach. unfold assign.
  destruct (String.eqb_spec k "__proto__") as [->|Hne]; simpl.
  - rewrite Hown, Hreach. simpl. done.
  - split; [done|]. by rewrite lookup_insert_ne.
Qed.

(** X21: string tickers cannot touch the prototype of the accumulator.
    When every discovered ticker is a string, and the accumulator starts
    as an ordinary object without an own ["__proto__"] property, the walk
    leaves its prototype as it is and creates no own ["__proto__"]
    property: a record whose path is ["__proto__"] is dropped. *)
Theorem processServiceInfo_keeps_prototype
    (info : Value) (coins : Coins) (prefix : string) :
  Forall (fun kv => exists s, kv.2 = VStr s) (coin_entries info prefix) ->
  own coins !! "__proto__" = None ->
  reaches_proto_accessor (proto coins) = true ->
  proto (processServiceInfo info coins prefix) = proto coins
  /\ own (processServiceInfo info coins prefix) !! "__proto__" = None.
Proof.
  rewrite processServiceInfo_entries.
  generalize (coin_entries info prefix) as E. intros E. revert coins.
  induction E as [|[k v] E IH]; intros coins Hall Hown Hreach; [done|].
  apply Forall_cons in Hall as [[s Hs] Hall]. simpl in Hs. subst v.
  simpl. unfold assign_entry at 2 4. simpl.
  destruct (assign_string_keeps_prototype coins k s Hown Hreach) as [Hp Ho].
  destruct (IH (assign coins k (VStr s)) Hall Ho) as [-> ->];
    [by rewrite Hp|done].
Qed.

Lemma processServiceInfo_keeps_prototype_witness :
  proto
    (processServiceInfo
       (VObj PlainObject
          [("__proto__", VObj PlainObject [("ticker", VStr "x")]);
           ("btc", VObj PlainObject [("ticker", VStr "btc")])])
       empty_coins "")
  = proto empty_coins
  /\ own
       (processServiceInfo
          (VObj PlainObject
             [("__proto__", VObj PlainObject [("ticker", VStr "x")]);
              ("btc", VObj PlainObject [("ticker", VStr "btc")])])
          empty_coins "") !! "__proto__"
     = None.
Proof.
  apply processServiceInfo_keeps_prototype.
  - repeat constructor; by eexists.
  - apply lookup_empty.
  - reflexivity.
Defined.
